(** * react-native/cli.js: the deprecation gate in front of the community CLI

    A shallow embedding of [packages/react-native/cli.js].  The script is a
    short sequence of conditionals around three effects (console output, a
    registry lookup, process exit) followed by one delegation call.  The
    embedding keeps that shape: JavaScript values and the handful of
    operators the script applies to them come first, then the functions of
    the script in source order over a small state-and-exception monad, then
    the properties. *)

From Stdlib Require Import ZArith String Ascii List Bool Lia.
From Stdlib Require Import DecimalString.
From Stdlib Require DecimalPos.
Import ListNotations.
Open Scope string_scope.
Open Scope Z_scope.

(** ** JavaScript values *)

Module JS.

(** Numbers.  JavaScript numbers are IEEE doubles.  This development
    computes with the integers among them that a double holds exactly:
    [Fin z] stands for the double equal to [z] and is meant for magnitudes
    below 2^53 only, where sums and products of integers are exact and the
    decimal text has no exponent; [NaN] is the result of converting a string
    that is not a numeral.  Past 2^53 the operations below keep computing in
    [Z] and no longer follow the doubles (which round), so every statement
    about values is made within that bound. *)
Inductive number :=
| NaN
| Fin (z : Z).

(** Primitive values. *)
Inductive prim :=
| PUndefined
| PNull
| PBool (b : bool)
| PNumber (n : number)
| PString (s : string).

(** Values as [JSON.parse] produces them: primitives, plain objects and
    arrays. *)
#[local] Unset Elimination Schemes.
Inductive value :=
| Prim (p : prim)
| Object (props : list (string * value))
| Array (items : list value).
#[local] Set Elimination Schemes.

(** What a [throw] carries.  [TypeError] and [SyntaxError] are the ones the
    engine raises itself; [Raised] is an error object coming from a
    library, with the two fields the script looks at; [Thrown] is a thrown
    value that is no object at all ([throw null], [throw 'text']). *)
Record Error := { code : prim; message : string }.

Inductive exn :=
| TypeError
| SyntaxError
| Raised (e : Error)
| Thrown (p : prim).

(** [s.split(sep)] for a one-character separator: the pieces between the
    occurrences of [sep], never an empty list. *)
Fixpoint split (sep : ascii) (s : string) : list string :=
  match s with
  | EmptyString => [EmptyString]
  | String c rest =>
      if Ascii.eqb c sep then EmptyString :: split sep rest
      else match split sep rest with
           | piece :: pieces => String c piece :: pieces
           | [] => [String c EmptyString]
           end
  end.

Definition is_digit (c : ascii) : bool :=
  let n := N_of_ascii c in ((48 <=? n) && (n <=? 57))%N.

Fixpoint all_digits (s : string) : bool :=
  match s with
  | EmptyString => true
  | String c rest => is_digit c && all_digits rest
  end.

Fixpoint digits_value (acc : Z) (s : string) : Z :=
  match s with
  | EmptyString => acc
  | String c rest => digits_value (10 * acc + (Z.of_N (N_of_ascii c) - 48)) rest
  end.

(** [Number(s)] on runs of decimal digits: the empty string is 0, a run of
    digits is its value.  JavaScript also reads surrounding blanks, a sign,
    an exponent, a radix prefix and [Infinity] as numerals; those are not
    computed here and come out as NaN, so this function agrees with
    [Number] on runs of digits (of a value below 2^53) and on strings that
    are no numeral at all, and statements about values are restricted to
    the former ([plain_version] below). *)
Definition StringToNumber (s : string) : number :=
  if all_digits s then Fin (digits_value 0 s) else NaN.

Definition ToNumber (p : prim) : number :=
  match p with
  | PUndefined => NaN
  | PNull => Fin 0
  | PBool b => Fin (if b then 1 else 0)
  | PNumber n => n
  | PString s => StringToNumber s
  end.

Definition Z_to_string (z : Z) : string :=
  NilZero.string_of_int (Z.to_int z).

Definition NumberToString (n : number) : string :=
  match n with
  | NaN => "NaN"
  | Fin z => Z_to_string z
  end.

Definition ToString (p : prim) : string :=
  match p with
  | PUndefined => "undefined"
  | PNull => "null"
  | PBool b => if b then "true" else "false"
  | PNumber n => NumberToString n
  | PString s => s
  end.

Definition ToBoolean (p : prim) : bool :=
  match p with
  | PUndefined | PNull => false
  | PBool b => b
  | PNumber NaN => false
  | PNumber (Fin z) => negb (z =? 0)
  | PString s => negb (s =? "")%string
  end.

Definition num_mul (a b : number) : number :=
  match a, b with
  | Fin x, Fin y => Fin (x * y)
  | _, _ => NaN
  end.

Definition num_add (a b : number) : number :=
  match a, b with
  | Fin x, Fin y => Fin (x + y)
  | _, _ => NaN
  end.

Definition num_gt (a b : number) : bool :=
  match a, b with
  | Fin x, Fin y => y <? x
  | _, _ => false
  end.

(** [a * b]: both operands are converted to numbers. *)
Definition mul (a b : prim) : prim :=
  PNumber (num_mul (ToNumber a) (ToNumber b)).

(** [a + b]: when either operand is a string the other is converted to a
    string and the two are concatenated; otherwise numeric addition. *)
Definition add (a b : prim) : prim :=
  match a, b with
  | PString s, _ => PString (s ++ ToString b)
  | _, PString s => PString (ToString a ++ s)
  | _, _ => PNumber (num_add (ToNumber a) (ToNumber b))
  end.

(** [a > b]: two strings are compared by code units, lexicographically;
    any other pair numerically, and a comparison with NaN is false. *)
Definition gt (a b : prim) : bool :=
  match a, b with
  | PString s, PString t => String.ltb t s
  | _, _ => num_gt (ToNumber a) (ToNumber b)
  end.

(** [a === b] on primitives: no conversion, and NaN equals nothing. *)
Definition strict_equals (a b : prim) : bool :=
  match a, b with
  | PUndefined, PUndefined => true
  | PNull, PNull => true
  | PBool x, PBool y => Bool.eqb x y
  | PNumber (Fin x), PNumber (Fin y) => x =? y
  | PString s, PString t => (s =? t)%string
  | _, _ => false
  end.

(** [o.key] on a parsed JSON value: reading a property of [null] or
    [undefined] throws; a plain object yields the property or [undefined].
    The one key the script reads this way is "version", which no primitive,
    array or prototype has, so those yield [undefined]. *)
Fixpoint lookup (key : string) (props : list (string * value)) : value :=
  match props with
  | [] => Prim PUndefined
  | (k, v) :: rest => if (k =? key)%string then v else lookup key rest
  end.

Definition get (v : value) (key : string) : exn + value :=
  match v with
  | Prim PUndefined | Prim PNull => inl TypeError
  | Object props => inr (lookup key props)
  | _ => inr (Prim PUndefined)
  end.

(** [s.startsWith(p)] and [re.test(s)] for a regular expression that is a
    plain literal (a substring search). *)
Fixpoint startsWith (s p : string) : bool :=
  match p, s with
  | EmptyString, _ => true
  | String _ _, EmptyString => false
  | String c p', String d s' => Ascii.eqb d c && startsWith s' p'
  end.

Fixpoint includes (s needle : string) : bool :=
  startsWith s needle ||
  match s with
  | EmptyString => false
  | String _ rest => includes rest needle
  end.

(** [Math.ceil(a / b)] for integers [a] and a positive integer [b]. *)
Definition ceil_div (a b : Z) : Z := - ((- a) / b).

End JS.

(** ** The script *)

(** [parseVersion] (cli.js:59).  [version.split] exists on strings only, so
    any other argument throws.  The array pattern [[major, minor = 0,
    patch = 0]] takes the first three pieces and replaces a missing one by
    the number 0; the pieces that are present are strings. *)
Definition parseVersion (version : JS.value) : JS.exn + JS.prim :=
  match version with
  | JS.Prim (JS.PString v) =>
      let pieces := JS.split "." (hd EmptyString (JS.split "-" v)) in
      let major := JS.PString (nth 0 pieces EmptyString) in
      let minor := match nth_error pieces 1 with
                   | Some m => JS.PString m
                   | None => JS.PNumber (JS.Fin 0)
                   end in
      let patch := match nth_error pieces 2 with
                   | Some p => JS.PString p
                   | None => JS.PNumber (JS.Fin 0)
                   end in
      inr (JS.add (JS.add (JS.mul major (JS.PNumber (JS.Fin 1000000)))
                          (JS.mul minor (JS.PNumber (JS.Fin 1000))))
                  patch)
  | _ => inl JS.TypeError
  end.

Definition str (s : string) : JS.value := JS.Prim (JS.PString s).

(** *** The process and its surroundings *)

(** What [getLatestVersion] meets for a registry host (cli.js:42-56).
    - [NotSent]: [new URL(registryHost)] or [get] throws (a host that is no
      URL, or one that is not https): no request leaves.
    - [RequestError]: the request emits ['error'].
    - [Body]: the response emits ['end'] after the given text.
    - [Unsettled]: the request is sent and neither happens (the connection
      is cut once the response has started, or stays silent): the promise
      of cli.js:42 is never settled. *)
Inductive response :=
| NotSent (e : JS.Error)
| RequestError (e : JS.Error)
| Body (text : string)
| Unsettled.

(** What [require('@react-native-community/cli')] comes to.  The package is
    no longer a dependency (cli.js:183), so resolution can fail: with an
    error object ([Failed]), or, when the code of the package itself throws
    something that is no object, with that value ([FailedWith]). *)
Inductive required :=
| Loaded
| Failed (e : JS.Error)
| FailedWith (thrown : JS.prim).

(** Everything the script reads from outside itself. *)
Record World := {
  env : string -> option string;   (* process.env *)
  argv : list string;              (* process.argv *)
  name : string;                   (* package.json, "name" *)
  currentVersion : string;         (* package.json, "version" *)
  clock : nat -> Z;                (* the n-th [new Date().getTime()], n from 0 *)
  registry : string -> response;   (* the GET sent to a registry host *)
  community_cli : required         (* resolution of the delegate package *)
}.

(** The object the module exports: the stub of cli.js:24 whose entry points
    throw, or the delegate package. *)
Inductive Cli :=
| deprecated_stub
| community.

(** The call that ends [main]: [run] of the delegate with its arguments. *)
Inductive call :=
| run (args : list string).

(** The four [console.warn] sites of the script. *)
Inductive warning :=
| UpgradeAdvisory      (* cli.js:145 *)
| TerminalNotice       (* cli.js:117 *)
| ScheduleWarning      (* cli.js:104 *)
| LightNotice.         (* cli.js:73 *)

(** Observable actions, oldest first in a trace: a line on the console,
    labelled with the site that wrote it, and a registry lookup. *)
Inductive event :=
| Warn (site : warning) (text : string)
| Lookup (registryHost : string).

Record state := { trace : list event; ticks : nat }.

Definition initial : state := {| trace := []; ticks := 0 |}.

(** How a computation ends: normally, by a [throw], by [process.exit], or
    not at all: [Pending] is a computation left waiting at an [await] whose
    promise is never settled.  Nothing after the [await] runs; once nothing
    else is left to do the process ends, with status 0. *)
Inductive outcome (A : Type) :=
| Ret (a : A)
| Throw (e : JS.exn)
| Exit (status : Z)
| Pending.
Arguments Ret {A} a.
Arguments Throw {A} e.
Arguments Exit {A} status.
Arguments Pending {A}.

Definition M (A : Type) : Type := state -> outcome A * state.

Definition ret {A} (a : A) : M A := fun s => (Ret a, s).

Definition bind {A B} (m : M A) (k : A -> M B) : M B :=
  fun s =>
    match m s with
    | (Ret a, s') => k a s'
    | (Throw e, s') => (Throw e, s')
    | (Exit c, s') => (Exit c, s')
    | (Pending, s') => (Pending, s')
    end.

Notation "x <- m ;; k" := (bind m (fun x => k))
  (at level 61, m at next level, right associativity).
Notation "m ;; k" := (bind m (fun _ => k))
  (at level 61, right associativity).

Definition throw {A} (e : JS.exn) : M A := fun s => (Throw e, s).

Definition lift {A} (r : JS.exn + A) : M A :=
  match r with
  | inl e => throw e
  | inr a => ret a
  end.

(** [try { body } catch (_) { }]: a [throw] of the body is dropped; what the
    body did before it stays done.  [process.exit] is not an exception, and
    a body left waiting stays waiting. *)
Definition try_ignore (body : M unit) : M unit :=
  fun s =>
    match body s with
    | (Throw _, s') => (Ret tt, s')
    | r => r
    end.

Definition emit (e : event) : M unit :=
  fun s => (Ret tt, {| trace := trace s ++ [e]; ticks := ticks s |}).

Definition console_warn (site : warning) (text : string) : M unit :=
  emit (Warn site text).

Definition process_exit {A} (status : Z) : M A := fun s => (Exit status, s).

(** [await] of a promise that is never settled. *)
Definition never {A} : M A := fun s => (Pending, s).

(** The chalk styles the script uses; [chalk.grey.bold] is [[grey; bold]]. *)
Inductive style :=
| grey | bold | dim | white | yellow | red | green | blueBright | bgRed.

Definition nl : string := String "010" EmptyString.

Definition HEAD : string := "1000.0.0".

(** [new Date('2024-09-30').getTime()]: midnight UTC, in milliseconds. *)
Definition CLI_DEPRECATION_DATE : Z := 1727654400000.

Definition REGISTRY_DEFAULT : string := "https://registry.npmjs.org/".
Definition COMMUNITY_CLI : string := "@react-native-community/cli".

Section Script.

(** The libraries the script calls and this development does not look
    into: chalk's styling of a string, [JSON.parse] ([None] when it throws
    a SyntaxError) and the locale's rendering of a date. *)
Variable chalk : list style -> string -> string.
Variable JSON_parse : string -> option JS.value.
Variable toLocaleDateString : Z -> string.

Variable w : World.

Definition getenv (key : string) : JS.prim :=
  match env w key with
  | Some v => JS.PString v
  | None => JS.PUndefined
  end.

(** cli.js:30 *)
Definition isNpxRuntime : bool :=
  JS.strict_equals (getenv "npm_lifecycle_event") (JS.PString "npx").

(** cli.js:31, [process.env.npm_config_registry ?? '...'] *)
Definition DEFAULT_REGISTRY_HOST : string :=
  match env w "npm_config_registry" with
  | Some host => host
  | None => REGISTRY_DEFAULT
  end.

(** [process.argv[2] === 'init'] *)
Definition argv2_is_init : bool :=
  match nth_error (argv w) 2 with
  | Some a => (a =? "init")%string
  | None => false
  end.

(** [new Date().getTime()]: each evaluation reads the clock once more. *)
Definition now : M Z :=
  fun s => (Ret (clock w (ticks s)),
            {| trace := trace s; ticks := S (ticks s) |}).

(** [getLatestVersion] (cli.js:41), awaited.  The promise is rejected when
    [new URL] or [get] throws inside the executor (before any request), when
    the request emits ['error'], and when parsing the body or reading
    [.version] of the parsed value throws; it resolves to that property,
    whatever it is, when the response ends; and it stays unsettled when the
    response never ends.  The [Lookup] event is the request leaving. *)
Definition getLatestVersion (registryHost : string) : M JS.value :=
  match registry w registryHost with
  | NotSent e => throw (JS.Raised e)
  | RequestError e => emit (Lookup registryHost) ;; throw (JS.Raised e)
  | Body text =>
      emit (Lookup registryHost) ;;
      match JSON_parse text with
      | None => throw JS.SyntaxError
      | Some parsed => lift (JS.get parsed "version")
      end
  | Unsettled => emit (Lookup registryHost) ;; never
  end.

(** The text of a value inside a template literal; only strings get that
    far in [main], since [parseVersion] has accepted the value before. *)
Definition text_of (v : JS.value) : string :=
  match v with
  | JS.Prim p => JS.ToString p
  | _ => EmptyString
  end.

(** cli.js:138 *)
Definition upgrade_message (latest : string) : string :=
  nl ++ "  " ++ chalk [bold; yellow] "WARNING:" ++ " You should run "
  ++ chalk [white; bold] "npx react-native@latest"
  ++ " to ensure you're always using the most current version of the CLI. NPX has cached version ("
  ++ chalk [bold; yellow] (currentVersion w)
  ++ ") != current release (" ++ chalk [bold; green] latest ++ ")" ++ nl ++ "  ".

(** cli.js:74 *)
Definition running_message : string :=
  nl ++ "Running: "
  ++ chalk [grey; bold] "npx @react-native-community/cli init" ++ nl.

(** [warnWhenRunningInit] (cli.js:71) *)
Definition warnWhenRunningInit : M unit :=
  if argv2_is_init then console_warn LightNotice running_message
  else ret tt.

(** cli.js:95 *)
Definition emphasis (daysRemaining : Z) : list style :=
  if daysRemaining <? 10 then [bgRed; white; bold]
  else if daysRemaining <? 30 then [red; bold]
  else if daysRemaining <? 60 then [green; bold]
  else [blueBright; bold].

Definition switch_and_refer : string :=
  "- Switch to " ++ chalk [dim] "npx @react-native-community/cli init"
  ++ " for the identical behavior." ++ nl
  ++ "- Refer to the documentation for information about alternative tools: "
  ++ chalk [dim] "https://reactnative.dev/docs/getting-started".

(** cli.js:104 *)
Definition schedule_message (daysRemaining : Z) : string :=
  nl ++ chalk [yellow] "⚠️" ++ " The `init` command is deprecated." ++ nl
  ++ "The behavior will be changed on "
  ++ chalk [white; bold] (toLocaleDateString CLI_DEPRECATION_DATE) ++ " "
  ++ chalk (emphasis daysRemaining)
       ("(" ++ JS.Z_to_string daysRemaining ++ " day"
        ++ (if 1 <? daysRemaining then "s" else "") ++ ")")
  ++ "." ++ nl ++ nl ++ switch_and_refer.

(** [warnWithDeprecationSchedule] (cli.js:86) *)
Definition warnWithDeprecationSchedule : M unit :=
  if negb argv2_is_init then ret tt
  else
    t <- now ;;
    let daysRemaining := JS.ceil_div (CLI_DEPRECATION_DATE - t) 86400000 in
    console_warn ScheduleWarning (schedule_message daysRemaining).

(** cli.js:117 *)
Definition deprecated_message : string :=
  nl ++ chalk [yellow] "⚠" ++ "️ The `init` command is deprecated." ++ nl
  ++ nl ++ switch_and_refer.

(** [warnWithDeprecated] (cli.js:112) *)
Definition warnWithDeprecated : M unit :=
  if negb argv2_is_init then ret tt
  else console_warn TerminalNotice deprecated_message.

(** [main], cli.js:134-150: the advisory version check. *)
Definition main_version_check : M unit :=
  if isNpxRuntime && negb (JS.ToBoolean (getenv "SKIP"))
     && negb (currentVersion w =? HEAD)%string
  then
    try_ignore
      (latest <- getLatestVersion DEFAULT_REGISTRY_HOST ;;
       l <- lift (parseVersion latest) ;;
       c <- lift (parseVersion (str (currentVersion w))) ;;
       if JS.gt l c
       then console_warn UpgradeAdvisory (upgrade_message (text_of latest))
       else ret tt)
  else ret tt.

(** [main], cli.js:152-174: the deprecation gate and the delegation. *)
Definition main_gate : M call :=
  t <- now ;;
  let isDeprecated :=
    (CLI_DEPRECATION_DATE <=? t) || JS.startsWith (currentVersion w) "0.76" in
  (if negb (currentVersion w =? HEAD)%string && isDeprecated
   then warnWithDeprecated ;; process_exit 1
   else ret tt) ;;
  (if JS.startsWith (currentVersion w) "0.75"
   then warnWithDeprecationSchedule
   else ret tt) ;;
  warnWhenRunningInit ;;
  match community_cli w with
  | Loaded => ret (run [name w])
  | Failed e => throw (JS.Raised e)
  | FailedWith thrown => throw (JS.Thrown thrown)
  end.

(** [main] (cli.js:133) *)
Definition main : M call :=
  main_version_check ;; main_gate.

(** The module body when the file is imported rather than executed
    (cli.js:179-194): the value of [module.exports], or the error that
    reaches the importer.  [!e.code === 'MODULE_NOT_FOUND'] negates
    [e.code] first and compares the boolean with the string.  On a thrown
    [null] or [undefined] reading [e.code] throws a TypeError out of the
    catch block; any other thrown primitive has no [code], and the first
    operand of [&&] being false the second is not evaluated. *)
Definition load : JS.exn + Cli :=
  match community_cli w with
  | Loaded => inr community
  | Failed e =>
      if JS.strict_equals (JS.PBool (negb (JS.ToBoolean (JS.code e))))
                          (JS.PString "MODULE_NOT_FOUND")
         && JS.includes (JS.message e) COMMUNITY_CLI
      then inl (JS.Raised e)
      else inr deprecated_stub
  | FailedWith (JS.PNull | JS.PUndefined) => inl JS.TypeError
  | FailedWith thrown =>
      if JS.strict_equals (JS.PBool (negb (JS.ToBoolean JS.PUndefined)))
                          (JS.PString "MODULE_NOT_FOUND")
      then inl (JS.Thrown thrown)
      else inr deprecated_stub
  end.

(** One run of the script as a program: how [main] ends and what it has
    done by then. *)
Definition result : outcome call := fst (main initial).
Definition output : list event := trace (snd (main initial)).

(** The three conjuncts of cli.js:134. *)
Definition check_enabled : bool :=
  isNpxRuntime && negb (JS.ToBoolean (getenv "SKIP"))
  && negb (currentVersion w =? HEAD)%string.

(** The request is sent and the awaited lookup, or the parse of what it
    resolved to, throws: the request fails, the body is not JSON, the parsed
    value has no readable [version], or that version is not a string. *)
Definition lookup_fails : bool :=
  match registry w DEFAULT_REGISTRY_HOST with
  | NotSent _ | Unsettled => false
  | RequestError _ => true
  | Body text =>
      match JSON_parse text with
      | None => true
      | Some parsed =>
          match JS.get parsed "version" with
          | inl _ => true
          | inr latest =>
              match parseVersion latest with
              | inl _ => true
              | inr _ => false
              end
          end
      end
  end.

(** The check is enabled and its request leaves. *)
Definition sent : bool :=
  check_enabled
  && match registry w DEFAULT_REGISTRY_HOST with
     | NotSent _ => false
     | _ => true
     end.

(** The check is enabled and its lookup is never settled: [main] is left
    waiting at cli.js:136. *)
Definition stalls : bool :=
  check_enabled
  && match registry w DEFAULT_REGISTRY_HOST with
     | Unsettled => true
     | _ => false
     end.

(** What cli.js:174 comes to once it is reached. *)
Definition delegation : outcome call :=
  match community_cli w with
  | Loaded => Ret (run [name w])
  | Failed e => Throw (JS.Raised e)
  | FailedWith thrown => Throw (JS.Thrown thrown)
  end.

(** The gate read off as plain functions of the clock readings it takes:
    [t0] at cli.js:153 and, when the schedule warning is due, [t1] at
    cli.js:92.  [main_gate_run] below shows that [main_gate] computes
    exactly these. *)
Definition is_terminal (t0 : Z) : bool :=
  negb (currentVersion w =? HEAD)%string
  && ((CLI_DEPRECATION_DATE <=? t0)
      || JS.startsWith (currentVersion w) "0.76").

Definition days_remaining (t1 : Z) : Z :=
  JS.ceil_div (CLI_DEPRECATION_DATE - t1) 86400000.

Definition gate_lines (t0 t1 : Z) : list event :=
  if is_terminal t0 then
    if argv2_is_init then [Warn TerminalNotice deprecated_message] else []
  else
    (if JS.startsWith (currentVersion w) "0.75" && argv2_is_init
     then [Warn ScheduleWarning (schedule_message (days_remaining t1))]
     else [])
    ++ (if argv2_is_init then [Warn LightNotice running_message] else []).

Definition gate_reads (t0 : Z) : nat :=
  if is_terminal t0 then 1%nat
  else if JS.startsWith (currentVersion w) "0.75" && argv2_is_init
       then 2%nat else 1%nat.

Definition gate_result (t0 : Z) : outcome call :=
  if is_terminal t0 then Exit 1 else delegation.

End Script.

(** A deprecation message is a console line from one of the three sites
    other than the upgrade advisory. *)
Definition deprecation_message (e : event) : bool :=
  match e with
  | Warn UpgradeAdvisory _ => false
  | Warn _ _ => true
  | Lookup _ => false
  end.

Definition is_lookup (e : event) : bool :=
  match e with
  | Lookup _ => true
  | Warn _ _ => false
  end.

Definition day : Z := 86400000.

(** [s] has no occurrence of the character [c]. *)
Fixpoint free_of (c : ascii) (s : string) : bool :=
  match s with
  | EmptyString => true
  | String d rest => negb (Ascii.eqb d c) && free_of c rest
  end.

(** A release [major.minor.patch] as text, and the usual order of releases:
    by major, then minor, then patch.  These are the terms in which the
    ordering property of [parseVersion] is put. *)
Definition release_text (major minor patch : Z) : string :=
  JS.Z_to_string major ++ "." ++ JS.Z_to_string minor ++ "."
  ++ JS.Z_to_string patch.

Definition release_newer (a b : Z * Z * Z) : bool :=
  let '(a1, a2, a3) := a in
  let '(b1, b2, b3) := b in
  (b1 <? a1) || ((b1 =? a1) && ((b2 <? a2) || ((b2 =? a2) && (b3 <? a3)))).

(** The same process started with [SKIP=true]. *)
Definition opt_out (w : World) : World :=
  {| env := fun key => if (key =? "SKIP")%string then Some "true" else env w key;
     argv := argv w; name := name w; currentVersion := currentVersion w;
     clock := clock w; registry := registry w;
     community_cli := community_cli w |}.

(** *** Concrete runs

    Stand-ins for the libraries and a few processes, used to exercise the
    statements below. *)

(** chalk without colour support: the text unchanged. *)
Definition plain (_ : list style) (s : string) : string := s.

(** A [JSON.parse] that knows two registry bodies and rejects the rest. *)
Definition parse_fixture (body : string) : option JS.value :=
  if (body =? "latest:0.76.0")%string
  then Some (JS.Object [("version", str "0.76.0")])
  else if (body =? "null")%string then Some (JS.Prim JS.PNull)
  else None.

Definition en_US (_ : Z) : string := "9/30/2024".

Definition npx_env (key : string) : option string :=
  if (key =? "npm_lifecycle_event")%string then Some "npx" else None.

Definition npx_skip_env (key : string) : option string :=
  if (key =? "npm_lifecycle_event")%string then Some "npx"
  else if (key =? "SKIP")%string then Some "true" else None.

Definition init_argv : list string :=
  ["/usr/bin/node"; "/app/node_modules/.bin/react-native"; "init"; "App"].

Definition start_argv : list string :=
  ["/usr/bin/node"; "/app/node_modules/.bin/react-native"; "start"].

Definition process (environment : string -> option string)
    (args : list string) (version : string) (time : Z)
    (reply : response) (cli : required) : World :=
  {| env := environment; argv := args; name := "react-native";
     currentVersion := version; clock := fun _ => time;
     registry := fun _ => reply; community_cli := cli |}.

Definition module_not_found : JS.Error :=
  {| JS.code := JS.PString "MODULE_NOT_FOUND";
     JS.message := "Cannot find module '@react-native-community/cli'" |}.

Definition syntax_error : JS.Error :=
  {| JS.code := JS.PUndefined; JS.message := "Unexpected token '}'" |}.

Definition econnrefused : JS.Error :=
  {| JS.code := JS.PString "ECONNREFUSED";
     JS.message := "connect ECONNREFUSED 127.0.0.1:443" |}.

(** 0.74.0 run through npx on 1 October 2024. *)
Definition after_cutoff_init : World :=
  process npx_env init_argv "0.74.0" (CLI_DEPRECATION_DATE + day)
    (Body "latest:0.76.0") Loaded.

Definition after_cutoff_start : World :=
  process npx_env start_argv "0.74.0" (CLI_DEPRECATION_DATE + day)
    (Body "latest:0.76.0") Loaded.

(** A build from the main branch, after the cutoff. *)
Definition head_init : World :=
  process npx_env init_argv HEAD (CLI_DEPRECATION_DATE + day)
    (Body "latest:0.76.0") Loaded.

Definition head_init_missing_cli : World :=
  process npx_env init_argv HEAD (CLI_DEPRECATION_DATE + day)
    (Body "latest:0.76.0") (Failed module_not_found).


Definition skipped_check : World :=
  process npx_skip_env init_argv "0.74.0" 0 (Body "latest:0.76.0") Loaded.

Definition registry_down : World :=
  process npx_env init_argv "0.74.0" 0 (RequestError econnrefused) Loaded.

Definition broken_delegate : World :=
  process (fun _ => None) init_argv "0.74.0" 0 (Body "") (Failed syntax_error).

(** *** Further vocabulary *)

(** The comparison of cli.js:137 as a function of the two version strings;
    [parseVersion] accepts every string. *)
Definition is_newer (latest current : string) : bool :=
  match parseVersion (str latest), parseVersion (str current) with
  | inr l, inr c => JS.gt l c
  | _, _ => false
  end.

(** A version written with two components, [major.minor]. *)
Definition short_release_text (major minor : Z) : string :=
  JS.Z_to_string major ++ "." ++ JS.Z_to_string minor.

Definition is_string (v : JS.value) : bool :=
  match v with
  | JS.Prim (JS.PString _) => true
  | _ => false
  end.

(** *** Further runs *)

(** 0.76.0 run through npx while the registry's latest is 0.76.0. *)
Definition up_to_date : World :=
  process npx_env start_argv "0.76.0" 0 (Body "latest:0.76.0") Loaded.

(** A registry that answers with the JSON text [null]. *)
Definition registry_null : World :=
  process npx_env init_argv "0.74.0" 0 (Body "null") Loaded.

(** 0.75.1 started one second before the cutoff; the second reading of the
    clock falls one second after it. *)
Definition across_cutoff : World :=
  {| env := npx_skip_env; argv := init_argv; name := "react-native";
     currentVersion := "0.75.1";
     clock := fun n => match n with
                       | O => CLI_DEPRECATION_DATE - 1000
                       | S _ => CLI_DEPRECATION_DATE + 1000
                       end;
     registry := fun _ => Body "latest:0.76.0"; community_cli := Loaded |}.

(** 0.75.1 at noon on 29 September 2024. *)
Definition last_day : World :=
  process npx_skip_env init_argv "0.75.1" (CLI_DEPRECATION_DATE - day / 2)
    (Body "latest:0.76.0") Loaded.

(** The versions on which the model of numbers is exact: each of the (at
    most three) components [parseVersion] reads is a run of at most four
    decimal digits.  Every number [parseVersion] and the comparison of
    cli.js:137 then form is an integer below 10^15, well under 2^53. *)
Definition short_digits (s : string) : bool :=
  JS.all_digits s && (String.length s <=? 4)%nat.

Definition plain_version (v : string) : bool :=
  forallb short_digits
    (firstn 3 (JS.split "." (hd EmptyString (JS.split "-" v)))).

(** The site of a console line. *)
Definition site_of (e : event) : option warning :=
  match e with
  | Warn site _ => Some site
  | Lookup _ => None
  end.

(** 2^53: up to here a double holds every integer. *)
Definition MAX_SAFE : Z := 9007199254740992.

(** *** Runs that meet the missing cases *)

Definition invalid_url : JS.Error :=
  {| JS.code := JS.PString "ERR_INVALID_URL"; JS.message := "Invalid URL" |}.

(** 0.74.0 run through npx after the cutoff, the connection to the registry
    cut once the response has started. *)
Definition cut_mid_response_init : World :=
  process npx_env init_argv "0.74.0" (CLI_DEPRECATION_DATE + day)
    Unsettled Loaded.

Definition cut_mid_response_start : World :=
  process npx_env start_argv "0.74.0" (CLI_DEPRECATION_DATE + day)
    Unsettled Loaded.

(** The same cut long before the cutoff. *)
Definition cut_mid_response_early : World :=
  process npx_env init_argv "0.74.0" 0 Unsettled Loaded.

(** npx with [npm_config_registry] set to the empty string, which is no
    URL. *)
Definition empty_registry : World :=
  {| env := fun key =>
              if (key =? "npm_lifecycle_event")%string then Some "npx"
              else if (key =? "npm_config_registry")%string then Some ""
              else None;
     argv := init_argv; name := "react-native"; currentVersion := "0.74.0";
     clock := fun _ => 0;
     registry := fun host =>
                   if (host =? "")%string then NotSent invalid_url
                   else Body "latest:0.76.0";
     community_cli := Loaded |}.

(** Another terminal and another locale: a chalk that marks what it
    styles, a date written year first. *)
Definition marked (_ : list style) (s : string) : string := "*" ++ s ++ "*".
Definition iso (_ : Z) : string := "2024-09-30".

(** ** Properties *)

(** Unfolding of the monad's operations, and closed facts by evaluation. *)
Ltac run_M :=
  cbv beta iota delta
    [bind try_ignore emit console_warn lift throw ret process_exit never
     now];
  cbn [trace ticks fst snd].

Ltac evaluate :=
  first [ reflexivity
        | vm_compute; reflexivity
        | vm_compute; discriminate
        | vm_compute; intro; discriminate
        | left; vm_compute; discriminate
        | left; vm_compute; intro; discriminate ].

(** *** Strings and arguments *)

Lemma startsWith_075 (v : string) :
  JS.startsWith v "0.75" = true ->
  JS.startsWith v "0.76" = false /\ (v =? HEAD)%string = false.
Proof.
  unfold HEAD.
  destruct v as [|a v]; cbn; [discriminate|].
  destruct (Ascii.eqb_spec a "0") as [->|]; [|discriminate].
  destruct v as [|b v]; cbn; [discriminate|].
  destruct (Ascii.eqb_spec b ".") as [->|]; [|discriminate].
  destruct v as [|c v]; cbn; [discriminate|].
  destruct (Ascii.eqb_spec c "7") as [->|]; [|discriminate].
  destruct v as [|d v]; cbn; [discriminate|].
  destruct (Ascii.eqb_spec d "5") as [->|]; [|discriminate].
  intros _. split; reflexivity.
Qed.

Lemma append_assoc (a b c : string) : (a ++ b) ++ c = a ++ (b ++ c).
Proof. induction a as [|x a IH]; cbn; [reflexivity | now rewrite IH]. Qed.

Lemma argv2_init (w : World) :
  nth_error (argv w) 2 = Some "init" -> argv2_is_init w = true.
Proof. unfold argv2_is_init. intros ->. reflexivity. Qed.

Lemma argv2_not_init (w : World) :
  nth_error (argv w) 2 <> Some "init" -> argv2_is_init w = false.
Proof.
  unfold argv2_is_init. intros H.
  destruct (nth_error (argv w) 2) as [a|]; [|reflexivity].
  destruct (String.eqb_spec a "init") as [->|]; [now elim H | reflexivity].
Qed.

Lemma version_is_not_HEAD (v : string) :
  v <> HEAD -> negb (v =? HEAD)%string = true.
Proof.
  intros H. destruct (String.eqb_spec v HEAD); [contradiction | reflexivity].
Qed.

(** [Math.ceil] of a quotient lands on [k] exactly when the dividend lies in
    the half-open interval that ends at [k] times the divisor. *)
Lemma ceil_div_unique (a b k : Z) :
  0 < b -> (k - 1) * b < a <= k * b -> JS.ceil_div a b = k.
Proof.
  intros Hb H. unfold JS.ceil_div.
  assert (- a / b = - k) as ->; [|lia].
  symmetry. apply Z.div_unique with (r := k * b - a); lia.
Qed.

(** *** Runs of [main] *)

(** The definitions of [main], [result] and [output], as equations. *)
Lemma main_eq chalk JSON_parse toLocaleDateString (w : World) (s : state) :
  main chalk JSON_parse toLocaleDateString w s
  = match main_version_check chalk JSON_parse w s with
    | (Ret _, s') => main_gate chalk toLocaleDateString w s'
    | (Throw e, s') => (Throw e, s')
    | (Exit status, s') => (Exit status, s')
    | (Pending, s') => (Pending, s')
    end.
Proof. reflexivity. Qed.

Lemma result_eq chalk JSON_parse toLocaleDateString (w : World) :
  result chalk JSON_parse toLocaleDateString w
  = fst (main chalk JSON_parse toLocaleDateString w initial).
Proof. reflexivity. Qed.

Lemma output_eq chalk JSON_parse toLocaleDateString (w : World) :
  output chalk JSON_parse toLocaleDateString w
  = trace (snd (main chalk JSON_parse toLocaleDateString w initial)).
Proof. reflexivity. Qed.

Section Properties.

Variable chalk : list style -> string -> string.
Variable JSON_parse : string -> option JS.value.
Variable toLocaleDateString : Z -> string.

Local Abbreviation main := (main chalk JSON_parse toLocaleDateString).
Local Abbreviation main_gate := (main_gate chalk toLocaleDateString).
Local Abbreviation main_version_check := (main_version_check chalk JSON_parse).
Local Abbreviation result := (result chalk JSON_parse toLocaleDateString).
Local Abbreviation output := (output chalk JSON_parse toLocaleDateString).

Lemma stalls_sent (w : World) : stalls w = true -> sent w = true.
Proof.
  unfold stalls, sent. destruct (check_enabled w); [|discriminate].
  now destruct (registry w (DEFAULT_REGISTRY_HOST w)).
Qed.

Lemma sent_enabled (w : World) : sent w = true -> check_enabled w = true.
Proof. unfold sent. now destruct (check_enabled w). Qed.

(** The advisory check never throws, never exits and never reads the clock.
    It returns normally unless its lookup is never settled, and writes
    nothing but its own lookup and at most one upgrade advisory. *)
Lemma main_version_check_run (w : World) (s : state) :
  exists advisory,
    main_version_check w s
    = (if stalls w then Pending else Ret tt,
       {| trace := trace s ++ advisory; ticks := ticks s |})
    /\ ((sent w = false /\ advisory = [])
        \/ (sent w = true
            /\ (advisory = [Lookup (DEFAULT_REGISTRY_HOST w)]
                \/ (stalls w = false
                    /\ exists text,
                         advisory = [Lookup (DEFAULT_REGISTRY_HOST w);
                                     Warn UpgradeAdvisory text])))).
Proof.
  unfold main_version_check, sent, stalls, check_enabled.
  destruct (isNpxRuntime w && negb (JS.ToBoolean (getenv w "SKIP"))
            && negb (currentVersion w =? HEAD)%string); cbn [andb].
  - unfold getLatestVersion.
    destruct (registry w (DEFAULT_REGISTRY_HOST w)) as [e|e|text|]; run_M.
    + exists []. rewrite app_nil_r. destruct s. split; [reflexivity|]. now left.
    + eexists; split; [reflexivity|]. right; split; [reflexivity|]. now left.
    + repeat
        match goal with
        | |- context [JSON_parse ?t] => destruct (JSON_parse t); run_M
        | |- context [JS.get ?v ?k] => destruct (JS.get v k); run_M
        | |- context [parseVersion ?v] => destruct (parseVersion v); run_M
        | |- context [JS.gt ?l ?c] => destruct (JS.gt l c); run_M
        end;
        eexists; (split; [try rewrite <- app_assoc; reflexivity|]);
        right; (split; [reflexivity|]);
        solve [now left | right; split; [reflexivity | eexists; reflexivity]].
    + eexists; split; [reflexivity|]. right; split; [reflexivity|]. now left.
  - exists []. rewrite app_nil_r. destruct s. split; [reflexivity|]. now left.
Qed.

(** [main_gate] computes the closed form. *)
Lemma main_gate_run (w : World) (s : state) :
  let t0 := clock w (ticks s) in
  let t1 := clock w (S (ticks s)) in
  main_gate w s
  = (gate_result w t0,
     {| trace := trace s ++ gate_lines chalk toLocaleDateString w t0 t1;
        ticks := (ticks s + gate_reads w t0)%nat |}).
Proof.
  destruct s as [tr n]. cbn [trace ticks].
  unfold main_gate, gate_result, gate_lines, gate_reads, is_terminal,
    warnWithDeprecated, warnWithDeprecationSchedule, warnWhenRunningInit,
    delegation, days_remaining.
  run_M.
  destruct (negb (currentVersion w =? HEAD)%string
            && ((CLI_DEPRECATION_DATE <=? clock w n)
                || JS.startsWith (currentVersion w) "0.76"));
    destruct (argv2_is_init w); cbn [negb]; run_M;
    try destruct (JS.startsWith (currentVersion w) "0.75");
    cbn [negb andb]; run_M;
    try destruct (community_cli w); run_M;
    rewrite ?app_nil_r, <- ?app_assoc, ?Nat.add_1_r;
    try replace (n + 2)%nat with (S (S n)) by lia;
    reflexivity.
Qed.

(** A whole run: the advisory part and, unless [main] is left waiting for
    the lookup, the gate on the first two clock readings. *)
Lemma output_run (w : World) :
  exists advisory,
    output w
    = (advisory
       ++ (if stalls w then []
           else gate_lines chalk toLocaleDateString w (clock w 0) (clock w 1)))%list
    /\ result w = (if stalls w then Pending else gate_result w (clock w 0))
    /\ ((sent w = false /\ advisory = [])
        \/ (sent w = true
            /\ (advisory = [Lookup (DEFAULT_REGISTRY_HOST w)]
                \/ (stalls w = false
                    /\ exists text,
                         advisory = [Lookup (DEFAULT_REGISTRY_HOST w);
                                     Warn UpgradeAdvisory text])))).
Proof.
  destruct (main_version_check_run w initial) as [advisory [Hrun Hadv]].
  exists advisory. rewrite output_eq, result_eq, main_eq, Hrun.
  destruct (stalls w).
  - cbn. rewrite app_nil_r. auto.
  - rewrite main_gate_run. cbn. auto.
Qed.

(** When [main] is not left waiting, the run is the advisory part followed
    by the gate. *)
Lemma settled_run (w : World) :
  stalls w = false ->
  exists advisory,
    output w
    = (advisory
       ++ gate_lines chalk toLocaleDateString w (clock w 0) (clock w 1))%list
    /\ result w = gate_result w (clock w 0)
    /\ Forall (fun e => deprecation_message e = false) advisory.
Proof.
  intros Hs. destruct (output_run w) as (advisory & Hout & Hres & Hadv).
  rewrite Hs in Hout, Hres. exists advisory. repeat split; auto.
  destruct Hadv as [[_ ->] | [_ [-> | [_ [text ->]]]]]; repeat constructor.
Qed.

Lemma advisory_no_deprecation (w : World) (advisory : list event) :
  (sent w = false /\ advisory = [])
  \/ (sent w = true
      /\ (advisory = [Lookup (DEFAULT_REGISTRY_HOST w)]
          \/ (stalls w = false
              /\ exists text,
                   advisory = [Lookup (DEFAULT_REGISTRY_HOST w);
                               Warn UpgradeAdvisory text]))) ->
  forall e, In e advisory -> deprecation_message e = false.
Proof.
  intros Hadv e He.
  destruct Hadv as [[_ ->] | [_ [-> | [_ [text ->]]]]]; cbn in He;
    repeat (destruct He as [<- | He]; [reflexivity|]); destruct He.
Qed.

Lemma is_terminal_true (w : World) (t0 : Z) :
  CLI_DEPRECATION_DATE <= t0 \/ JS.startsWith (currentVersion w) "0.76" = true ->
  currentVersion w <> HEAD ->
  is_terminal w t0 = true.
Proof.
  intros Hterm Hhead. unfold is_terminal.
  rewrite (version_is_not_HEAD _ Hhead). cbn [andb].
  destruct Hterm as [Hdate | ->]; [|apply orb_true_r].
  apply Z.leb_le in Hdate. now rewrite Hdate.
Qed.

Lemma is_terminal_HEAD (w : World) (t0 : Z) :
  currentVersion w = HEAD -> is_terminal w t0 = false.
Proof. intros H. unfold is_terminal. rewrite H. reflexivity. Qed.

Lemma check_enabled_HEAD (w : World) :
  currentVersion w = HEAD -> check_enabled w = false.
Proof.
  intros H. unfold check_enabled. rewrite H. cbn. apply andb_false_r.
Qed.

Lemma gate_lines_no_lookup (w : World) (t0 t1 : Z) (e : event) :
  In e (gate_lines chalk toLocaleDateString w t0 t1) -> is_lookup e = false.
Proof.
  unfold gate_lines.
  destruct (is_terminal w t0), (argv2_is_init w),
    (JS.startsWith (currentVersion w) "0.75"); cbn;
    intuition (subst; reflexivity).
Qed.

Lemma gate_lines_not_init (w : World) (t0 t1 : Z) :
  argv2_is_init w = false ->
  gate_lines chalk toLocaleDateString w t0 t1 = [].
Proof.
  intros H. unfold gate_lines. rewrite H, andb_false_r.
  now destruct (is_terminal w t0).
Qed.

Lemma check_enabled_iff (w : World) :
  check_enabled w = true
  <-> env w "npm_lifecycle_event" = Some "npx"
      /\ (env w "SKIP" = None \/ env w "SKIP" = Some "")
      /\ currentVersion w <> HEAD.
Proof.
  unfold check_enabled, isNpxRuntime, getenv.
  rewrite !andb_true_iff, !negb_true_iff.
  split.
  - intros [[Hnpx Hskip] Hhead]. repeat split.
    + destruct (env w "npm_lifecycle_event") as [v|]; [|discriminate].
      cbn in Hnpx. apply String.eqb_eq in Hnpx. now subst.
    + destruct (env w "SKIP") as [v|]; [|now left].
      right. cbn in Hskip. apply negb_false_iff, String.eqb_eq in Hskip.
      now subst.
    + intros Heq. rewrite Heq in Hhead. discriminate.
  - intros (Hnpx & Hskip & Hhead). repeat split.
    + rewrite Hnpx. reflexivity.
    + destruct Hskip as [-> | ->]; reflexivity.
    + now apply String.eqb_neq.
Qed.

Lemma delegation_not_exit (w : World) (status : Z) :
  delegation w <> Exit status.
Proof. unfold delegation. destruct (community_cli w); discriminate. Qed.

Lemma delegation_not_pending (w : World) : delegation w <> Pending.
Proof. unfold delegation. destruct (community_cli w); discriminate. Qed.

Lemma not_terminal_075 (w : World) (t0 : Z) :
  JS.startsWith (currentVersion w) "0.75" = true ->
  t0 < CLI_DEPRECATION_DATE ->
  is_terminal w t0 = false.
Proof.
  intros H075 Hdate. unfold is_terminal.
  destruct (startsWith_075 _ H075) as [-> _].
  apply Z.leb_gt in Hdate. rewrite Hdate. apply andb_false_r.
Qed.

(** *** Head builds *)

(** C2.  On a [HEAD] build called with "init", whatever the clock and the
    environment say, [main] performs no lookup and does not exit: it prints
    the light notice and ends in the delegation step of cli.js:174. *)
Theorem head_build_reaches_delegation (w : World) :
  currentVersion w = HEAD ->
  nth_error (argv w) 2 = Some "init" ->
  (forall host, ~ In (Lookup host) (output w))
  /\ (forall status, result w <> Exit status)
  /\ result w = delegation w
  /\ output w = [Warn LightNotice (running_message chalk)].
Proof.
  intros Hhead Hinit.
  destruct (output_run w) as (advisory & Hout & Hres & Hadv).
  assert (Hs : stalls w = false)
    by (unfold stalls; now rewrite (check_enabled_HEAD w Hhead)).
  assert (Hn : sent w = false)
    by (unfold sent; now rewrite (check_enabled_HEAD w Hhead)).
  rewrite Hs in Hout, Hres. rewrite Hn in Hadv.
  destruct Hadv as [[_ ->] | [Habs _]]; [|discriminate].
  unfold gate_result in Hres. unfold gate_lines in Hout.
  rewrite (is_terminal_HEAD w _ Hhead) in Hres, Hout.
  rewrite (argv2_init w Hinit), Hhead in Hout. cbn in Hout.
  rewrite Hout, Hres. repeat split; auto.
  - intros host [Habs | []]. discriminate.
  - intros status. apply delegation_not_exit.
Qed.

(** *** Arguments other than "init" *)

(** C7.  When the first positional argument is not "init", nothing [main]
    prints comes from the light notice, the schedule warning or the terminal
    notice, at any date and for any running version. *)
Theorem no_deprecation_message_without_init (w : World) :
  nth_error (argv w) 2 <> Some "init" ->
  forall e, In e (output w) -> deprecation_message e = false.
Proof.
  intros Hnot e He.
  destruct (output_run w) as (advisory & Hout & _ & Hadv).
  rewrite (gate_lines_not_init w _ _ (argv2_not_init w Hnot)) in Hout.
  assert (Hout' : output w = advisory)
    by (rewrite Hout; destruct (stalls w); apply app_nil_r).
  rewrite Hout' in He.
  exact (advisory_no_deprecation w advisory Hadv e He).
Qed.

(** *** The advisory lookup *)

Lemma sent_iff (w : World) :
  sent w = true
  <-> check_enabled w = true
      /\ forall e, registry w (DEFAULT_REGISTRY_HOST w) <> NotSent e.
Proof.
  unfold sent. destruct (check_enabled w); cbn [andb].
  - destruct (registry w (DEFAULT_REGISTRY_HOST w)) as [e|e|text|]; split;
      try (intros _; split; [reflexivity | discriminate]);
      try reflexivity.
    + discriminate.
    + intros [_ H]. now elim (H e).
  - split; [discriminate | intros [Habs _]; discriminate].
Qed.

Lemma lookup_iff_sent (w : World) :
  (exists host, In (Lookup host) (output w)) <-> sent w = true.
Proof.
  destruct (output_run w) as (advisory & Hout & _ & Hadv).
  assert (Hgate : forall host,
             ~ In (Lookup host)
                 (if stalls w then []
                  else gate_lines chalk toLocaleDateString w
                         (clock w 0) (clock w 1))).
  { intros host Hin. destruct (stalls w); [destruct Hin|].
    apply gate_lines_no_lookup in Hin. discriminate. }
  rewrite Hout. split.
  - intros [host Hin]. apply in_app_or in Hin.
    destruct Hin as [Hin | Hin]; [|now apply Hgate in Hin].
    destruct Hadv as [[_ ->] | [Hs _]]; [destruct Hin | exact Hs].
  - intros Hs. exists (DEFAULT_REGISTRY_HOST w). apply in_or_app. left.
    destruct Hadv as [[Habs _] | [_ [-> | [_ [text ->]]]]];
      [congruence | now left | now left].
Qed.

Lemma lookup_host (w : World) (host : string) :
  In (Lookup host) (output w) -> host = DEFAULT_REGISTRY_HOST w.
Proof.
  destruct (output_run w) as (advisory & Hout & _ & Hadv).
  rewrite Hout. intros Hin. apply in_app_or in Hin.
  destruct Hin as [Hin | Hin].
  - destruct Hadv as [[_ ->] | [_ [-> | [_ [text ->]]]]]; cbn in Hin;
      intuition congruence.
  - destruct (stalls w); [destruct Hin|].
    apply gate_lines_no_lookup in Hin. discriminate.
Qed.

(** C4, as the code has it.  A lookup request leaves exactly when
    [npm_lifecycle_event] is "npx", [SKIP] is unset or empty, the running
    version is not [HEAD], and the registry host is one a request can be
    sent to: when [new URL] or [get] rejects the host the check is entered
    and no request is made.  The one lookup goes to the default registry
    host, and a non-empty [SKIP] rules it out. *)
Theorem lookup_iff_request_leaves (w : World) :
  ((exists host, In (Lookup host) (output w))
   <-> env w "npm_lifecycle_event" = Some "npx"
       /\ (env w "SKIP" = None \/ env w "SKIP" = Some "")
       /\ currentVersion w <> HEAD
       /\ forall e, registry w (DEFAULT_REGISTRY_HOST w) <> NotSent e)
  /\ (forall host, In (Lookup host) (output w) -> host = DEFAULT_REGISTRY_HOST w)
  /\ (forall flag, env w "SKIP" = Some flag -> flag <> "" ->
      forall host, ~ In (Lookup host) (output w)).
Proof.
  split; [|split].
  - rewrite lookup_iff_sent, sent_iff, check_enabled_iff. tauto.
  - apply lookup_host.
  - intros flag Hflag Hne host Hin.
    assert (Hs : sent w = true) by (apply lookup_iff_sent; eauto).
    apply sent_enabled, check_enabled_iff in Hs.
    destruct Hs as (_ & [Hs | Hs] & _); rewrite Hflag in Hs; congruence.
Qed.

(** *** The schedule warning *)


(** *** Delegation *)

(** C9, as the code has it.  When [main] is not left waiting for the lookup
    and does not exit, it ends at cli.js:174: with the call of the delegate's
    [run] entry point, the package name being the only argument, when the
    package resolves; and with what [require] throws when it does not. *)
Theorem gate_passed_then_run_with_name (w : World) :
  stalls w = false ->
  (forall status, result w <> Exit status) ->
  (community_cli w = Loaded -> result w = Ret (run [name w]))
  /\ (forall e, community_cli w = Failed e -> result w = Throw (JS.Raised e))
  /\ (forall thrown, community_cli w = FailedWith thrown ->
      result w = Throw (JS.Thrown thrown)).
Proof.
  intros Hs Hlive.
  destruct (output_run w) as (advisory & _ & Hres & _).
  rewrite Hs in Hres. unfold gate_result in Hres.
  destruct (is_terminal w (clock w 0)); [now elim (Hlive 1)|].
  rewrite Hres. unfold delegation.
  repeat split; [intros ->|intros e ->|intros thrown ->]; reflexivity.
Qed.

End Properties.

(** *** parseVersion *)

Lemma split_free (sep : ascii) (s : string) :
  free_of sep s = true -> JS.split sep s = [s].
Proof.
  induction s as [|c s IH]; cbn; [reflexivity|].
  destruct (Ascii.eqb c sep); cbn; [discriminate|].
  intros H. now rewrite (IH H).
Qed.

Lemma split_app (sep : ascii) (s rest : string) :
  free_of sep s = true ->
  JS.split sep (s ++ String sep rest) = s :: JS.split sep rest.
Proof.
  induction s as [|c s IH]; cbn.
  - now rewrite Ascii.eqb_refl.
  - destruct (Ascii.eqb c sep); cbn; [discriminate|].
    intros H. now rewrite (IH H).
Qed.

Lemma digits_free_of (sep : ascii) (s : string) :
  JS.is_digit sep = false -> JS.all_digits s = true -> free_of sep s = true.
Proof.
  intros Hsep. induction s as [|c s IH]; cbn; [reflexivity|].
  intros H. apply andb_true_iff in H. destruct H as [Hc Hs].
  rewrite (IH Hs), andb_true_r.
  destruct (Ascii.eqb_spec c sep) as [->|]; [congruence | reflexivity].
Qed.

Lemma free_of_app (c : ascii) (a b : string) :
  free_of c a = true -> free_of c b = true -> free_of c (a ++ b) = true.
Proof.
  induction a as [|x a IH]; cbn; [auto|].
  intros H Hb. apply andb_true_iff in H. destruct H as [-> Ha].
  now rewrite (IH Ha Hb).
Qed.

(** The first half of the C3 property holds: what follows the first hyphen
    does not reach the result. *)
Lemma parseVersion_ignores_prerelease (v pre : string) :
  free_of "-" v = true ->
  parseVersion (str (v ++ "-" ++ pre)) = parseVersion (str v).
Proof.
  intros H. unfold parseVersion, str.
  change ("-" ++ pre) with (String "-" pre).
  now rewrite (split_app "-" v pre H), (split_free "-" v H).
Qed.

(** With all three components present the last operand of the sum is a
    string, so the sum is a concatenation: the result is the text of
    [major * 1000000 + minor * 1000] followed by the text of the patch. *)
Lemma parseVersion_three_components (major minor patch : string) :
  JS.all_digits major = true ->
  JS.all_digits minor = true ->
  JS.all_digits patch = true ->
  parseVersion (str (major ++ "." ++ minor ++ "." ++ patch))
  = inr (JS.PString
           (JS.Z_to_string (JS.digits_value 0 major * 1000000
                            + JS.digits_value 0 minor * 1000)
            ++ patch)).
Proof.
  intros Hmajor Hminor Hpatch.
  assert (Hdash : forall s, JS.all_digits s = true -> free_of "-" s = true)
    by (intros s; now apply digits_free_of).
  assert (Hdot : forall s, JS.all_digits s = true -> free_of "." s = true)
    by (intros s; now apply digits_free_of).
  unfold parseVersion, str.
  rewrite (split_free "-").
  2:{ repeat (apply free_of_app; auto; try reflexivity). }
  cbn [hd].
  change ("." ++ minor ++ "." ++ patch) with (String "." (minor ++ "." ++ patch)).
  rewrite (split_app "." major _ (Hdot _ Hmajor)).
  change ("." ++ patch) with (String "." patch).
  rewrite (split_app "." minor _ (Hdot _ Hminor)).
  rewrite (split_free "." patch (Hdot _ Hpatch)).
  cbn [nth nth_error].
  unfold JS.mul, JS.add, JS.ToNumber, JS.StringToNumber.
  rewrite Hmajor, Hminor. reflexivity.
Qed.

(** C3, at releases 0.75.10 and 0.75.9.  The first is the newer one and both
    have minor and patch below 1000, yet [parseVersion] yields the strings
    "7500010" and "750009", and [>] on two strings compares them character by
    character: the newer release does not compare greater, the older one
    does. *)
Theorem parseVersion_misorders_patch_releases :
  release_newer (0, 75, 10) (0, 75, 9) = true
  /\ parseVersion (str (release_text 0 75 10)) = inr (JS.PString "7500010")
  /\ parseVersion (str (release_text 0 75 9)) = inr (JS.PString "750009")
  /\ JS.gt (JS.PString "7500010") (JS.PString "750009") = false
  /\ JS.gt (JS.PString "750009") (JS.PString "7500010") = true.
Proof. repeat split; reflexivity. Qed.

(** *** Loading as a library *)

(** The guard of cli.js:185 compares a boolean with a string, so it never
    holds: whatever error object [require] throws, the module exports the
    stub. *)
Lemma load_never_propagates (w : World) (e : JS.Error) :
  community_cli w = Failed e -> load w = inr deprecated_stub.
Proof.
  unfold load. intros ->.
  now destruct (JS.ToBoolean (JS.code e)).
Qed.

(** C8, at a delegate package that is installed but does not parse.  The
    error of [require] is a SyntaxError: its code is not MODULE_NOT_FOUND and
    its message does not name the package.  [load] drops it and exports the
    stub, as it does for the missing package. *)
Theorem load_swallows_syntax_error :
  community_cli broken_delegate = Failed syntax_error
  /\ JS.strict_equals (JS.code syntax_error) (JS.PString "MODULE_NOT_FOUND")
     = false
  /\ JS.includes (JS.message syntax_error) COMMUNITY_CLI = false
  /\ load broken_delegate = inr deprecated_stub
  /\ load head_init_missing_cli = inr deprecated_stub.
Proof. repeat split; reflexivity. Qed.

(** *** A lookup that is never settled *)

(** C1, at a 0.74.0 release run through npx with "init" on the day after the
    cutoff, the connection to the registry being cut once the response has
    started.  The promise of cli.js:42 is settled by the request's ['error']
    and by the response's ['end'] only, and neither comes: [main] stays at
    the [await] of cli.js:136, sends its lookup and nothing more.  No
    terminal notice, no exit with status 1.  The same process with a
    complete response exits with status 1. *)
Theorem terminal_init_is_left_waiting :
  CLI_DEPRECATION_DATE <= clock cut_mid_response_init 0
  /\ currentVersion cut_mid_response_init <> HEAD
  /\ nth_error (argv cut_mid_response_init) 2 = Some "init"
  /\ result plain parse_fixture en_US cut_mid_response_init = Pending
  /\ output plain parse_fixture en_US cut_mid_response_init
     = [Lookup "https://registry.npmjs.org/"]
  /\ result plain parse_fixture en_US after_cutoff_init = Exit 1.
Proof. repeat split; evaluate. Qed.

(** C10, at the same release and date called with "start", the connection
    cut in the same way: [main] is left waiting and does not exit with
    status 1. *)
Theorem terminal_start_is_left_waiting :
  CLI_DEPRECATION_DATE <= clock cut_mid_response_start 0
  /\ currentVersion cut_mid_response_start <> HEAD
  /\ nth_error (argv cut_mid_response_start) 2 = Some "start"
  /\ result plain parse_fixture en_US cut_mid_response_start = Pending
  /\ output plain parse_fixture en_US cut_mid_response_start
     = [Lookup "https://registry.npmjs.org/"]
  /\ result plain parse_fixture en_US after_cutoff_start = Exit 1.
Proof. repeat split; evaluate. Qed.

(** C5, at a 0.74.0 release run through npx long before the cutoff, the
    connection cut once the response has started.  This failure of the
    lookup is not suppressed: [main] never reaches the gate nor the
    delegation, while the same process with [SKIP] set prints the light
    notice and calls the delegate. *)
Theorem cut_connection_is_not_suppressed :
  check_enabled cut_mid_response_early = true
  /\ registry cut_mid_response_early
       (DEFAULT_REGISTRY_HOST cut_mid_response_early) = Unsettled
  /\ result plain parse_fixture en_US cut_mid_response_early = Pending
  /\ output plain parse_fixture en_US cut_mid_response_early
     = [Lookup "https://registry.npmjs.org/"]
  /\ result plain parse_fixture en_US (opt_out cut_mid_response_early)
     = Ret (run ["react-native"])
  /\ output plain parse_fixture en_US (opt_out cut_mid_response_early)
     = [Warn LightNotice (running_message plain)].
Proof. repeat split; evaluate. Qed.

(** ** The statements at concrete runs *)

(** A head build started with "init" after the cutoff. *)
Lemma head_init_after_cutoff :
  currentVersion head_init = HEAD
  /\ nth_error (argv head_init) 2 = Some "init"
  /\ (forall host, ~ In (Lookup host) (output plain parse_fixture en_US head_init))
  /\ result plain parse_fixture en_US head_init = delegation head_init.
Proof.
  assert (H1 : currentVersion head_init = HEAD) by evaluate.
  assert (H2 : nth_error (argv head_init) 2 = Some "init") by evaluate.
  destruct (head_build_reaches_delegation
              plain parse_fixture en_US head_init H1 H2) as (Hl & _ & Hd & _).
  exact (conj H1 (conj H2 (conj Hl Hd))).
Defined.

(** "start" on a 0.74.0 release after the cutoff. *)
Lemma start_prints_no_deprecation_message :
  nth_error (argv after_cutoff_start) 2 <> Some "init"
  /\ (forall e, In e (output plain parse_fixture en_US after_cutoff_start) ->
      deprecation_message e = false).
Proof.
  assert (H : nth_error (argv after_cutoff_start) 2 <> Some "init") by evaluate.
  split; [exact H|].
  exact (no_deprecation_message_without_init
           plain parse_fixture en_US after_cutoff_start H).
Defined.

(** [SKIP=true] under npx: no lookup. *)
Lemma skip_rules_out_lookup :
  env skipped_check "npm_lifecycle_event" = Some "npx"
  /\ env skipped_check "SKIP" = Some "true"
  /\ (forall host,
      ~ In (Lookup host) (output plain parse_fixture en_US skipped_check)).
Proof.
  assert (H1 : env skipped_check "SKIP" = Some "true") by evaluate.
  assert (H2 : "true" <> "") by evaluate.
  refine (conj eq_refl (conj H1 _)).
  exact (proj2 (proj2 (lookup_iff_request_leaves
                         plain parse_fixture en_US skipped_check))
           "true" H1 H2).
Defined.

(** C4 as worded fails where the registry host is no URL: under npx, with
    [SKIP] unset, on a release, and [npm_config_registry] set to the empty
    string, the check is entered and no request is made. *)
Lemma empty_registry_sends_no_request :
  ~ ((exists host,
        In (Lookup host) (output plain parse_fixture en_US empty_registry))
     <-> env empty_registry "npm_lifecycle_event" = Some "npx"
         /\ (env empty_registry "SKIP" = None
             \/ env empty_registry "SKIP" = Some "")
         /\ currentVersion empty_registry <> HEAD).
Proof.
  intros [_ H].
  destruct H as [host Hin].
  - repeat split; [now left | evaluate].
  - vm_compute in Hin. destruct Hin as [Habs | []]. discriminate.
Qed.


(** A head build whose delegate resolves. *)
Lemma head_init_runs_with_name :
  stalls head_init = false
  /\ (forall status, result plain parse_fixture en_US head_init <> Exit status)
  /\ community_cli head_init = Loaded
  /\ result plain parse_fixture en_US head_init = Ret (run ["react-native"]).
Proof.
  assert (H0 : stalls head_init = false) by evaluate.
  assert (H1 : forall status,
             result plain parse_fixture en_US head_init <> Exit status)
    by (intros status; evaluate).
  assert (H2 : community_cli head_init = Loaded) by evaluate.
  refine (conj H0 (conj H1 (conj H2 _))).
  exact (proj1 (gate_passed_then_run_with_name
                  plain parse_fixture en_US head_init H0 H1) H2).
Defined.

(** C9 as worded fails twice over.  On a head build whose delegate package
    is missing [main] passes the gate and makes no call at all; on one whose
    package resolves, the call has the package name for its only argument,
    while the process was given four. *)
Lemma handoff_does_not_pass_arguments :
  ~ ((forall status,
       result plain parse_fixture en_US head_init_missing_cli <> Exit status) ->
     exists args,
       result plain parse_fixture en_US head_init_missing_cli = Ret (run args)
       /\ incl (argv head_init_missing_cli) args)
  /\ ~ ((forall status,
          result plain parse_fixture en_US head_init <> Exit status) ->
        exists args,
          result plain parse_fixture en_US head_init = Ret (run args)
          /\ incl (argv head_init) args).
Proof.
  split; intros H.
  - destruct H as (args & Hres & _); [intros status; evaluate|].
    vm_compute in Hres. discriminate.
  - destruct H as (args & Hres & Hincl); [intros status; evaluate|].
    vm_compute in Hres. injection Hres as <-.
    specialize (Hincl "init"). cbn in Hincl.
    destruct Hincl as [Habs | []]; [auto|]. discriminate.
Qed.
(** ** Further properties *)

(** *** Decimal numerals *)

Lemma digits_value_acc (d : Decimal.uint) (acc : positive) :
  JS.digits_value (Zpos acc) (NilEmpty.string_of_uint d)
  = Zpos (Pos.of_uint_acc d acc).
Proof.
  revert acc. induction d; intros acc; cbn [NilEmpty.string_of_uint
    JS.digits_value Pos.of_uint_acc]; [reflexivity|..];
    match goal with
    | |- JS.digits_value ?a _ = Zpos (Pos.of_uint_acc _ ?b) =>
        replace a with (Zpos b)
          by (match goal with
              | |- context [Z.of_N (N_of_ascii ?c)] =>
                  let v := eval vm_compute in (Z.of_N (N_of_ascii c)) in
                  change (Z.of_N (N_of_ascii c)) with v
              end; lia)
    end; apply IHd.
Qed.

Lemma digits_value_of_uint (d : Decimal.uint) :
  JS.digits_value 0 (NilEmpty.string_of_uint d) = Z.of_N (Pos.of_uint d).
Proof.
  induction d; cbn [NilEmpty.string_of_uint JS.digits_value Pos.of_uint];
    [reflexivity | exact IHd | ..];
    match goal with
    | |- JS.digits_value ?a _ = Z.of_N (Npos (Pos.of_uint_acc _ ?b)) =>
        change a with (Zpos b)
    end; apply digits_value_acc.
Qed.

Lemma all_digits_of_uint (d : Decimal.uint) :
  JS.all_digits (NilEmpty.string_of_uint d) = true.
Proof. induction d; cbn; auto. Qed.

Lemma Z_to_string_pos (p : positive) :
  JS.Z_to_string (Zpos p) = NilEmpty.string_of_uint (Pos.to_uint p).
Proof.
  unfold JS.Z_to_string. cbn [Z.to_int NilZero.string_of_int].
  unfold NilZero.string_of_uint.
  destruct (Pos.to_uint p) eqn:E; try reflexivity.
  pose proof (DecimalPos.Unsigned.of_to p) as H. rewrite E in H. discriminate.
Qed.

(** The text of a natural number is a run of digits. *)
Lemma all_digits_Z_to_string (n : Z) :
  0 <= n -> JS.all_digits (JS.Z_to_string n) = true.
Proof.
  destruct n as [|p|p]; intros H; [reflexivity | | lia].
  rewrite Z_to_string_pos. apply all_digits_of_uint.
Qed.

Lemma digits_value_Z_to_string (n : Z) :
  0 <= n -> JS.digits_value 0 (JS.Z_to_string n) = n.
Proof.
  destruct n as [|p|p]; intros H; [reflexivity | | lia].
  rewrite Z_to_string_pos, digits_value_of_uint.
  now rewrite DecimalPos.Unsigned.of_to.
Qed.

(** *** More on parseVersion *)

Lemma string_compare_refl (s : string) : String.compare s s = Eq.
Proof.
  induction s as [|c s IH]; cbn; [reflexivity|].
  unfold Ascii.compare. now rewrite N.compare_refl.
Qed.

Lemma gt_irrefl (p : JS.prim) : JS.gt p p = false.
Proof.
  destruct p as [| |b|[|z]|s]; cbn; try reflexivity.
  - now destruct b.
  - apply Z.ltb_irrefl.
  - unfold String.ltb. now rewrite string_compare_refl.
Qed.

(** A version never counts as newer than itself, whatever the string. *)
Theorem is_newer_irreflexive (v : string) : is_newer v v = false.
Proof. unfold is_newer, parseVersion, str. apply gt_irrefl. Qed.

(** For a release written out from three natural numbers, the numeric part
    staying below 2^53, the result is the text of
    [major * 1000000 + minor * 1000] with the text of the patch appended: a
    string, not their sum. *)
Theorem parseVersion_of_release (major minor patch : Z) :
  0 <= major -> 0 <= minor -> 0 <= patch ->
  major * 1000000 + minor * 1000 < MAX_SAFE ->
  parseVersion (str (release_text major minor patch))
  = inr (JS.PString (JS.Z_to_string (major * 1000000 + minor * 1000)
                     ++ JS.Z_to_string patch)).
Proof.
  intros Ha Hb Hc _. unfold release_text.
  rewrite parseVersion_three_components
    by now apply all_digits_Z_to_string.
  now rewrite !digits_value_Z_to_string.
Qed.

Lemma parseVersion_two_components (major minor : string) :
  JS.all_digits major = true ->
  JS.all_digits minor = true ->
  parseVersion (str (major ++ "." ++ minor))
  = inr (JS.PNumber (JS.Fin (JS.digits_value 0 major * 1000000
                             + JS.digits_value 0 minor * 1000 + 0))).
Proof.
  intros Hmajor Hminor.
  assert (Hdash : forall s, JS.all_digits s = true -> free_of "-" s = true)
    by (intros s; now apply digits_free_of).
  assert (Hdot : forall s, JS.all_digits s = true -> free_of "." s = true)
    by (intros s; now apply digits_free_of).
  unfold parseVersion, str.
  rewrite (split_free "-").
  2:{ repeat (apply free_of_app; auto; try reflexivity). }
  cbn [hd].
  change ("." ++ minor) with (String "." minor).
  rewrite (split_app "." major _ (Hdot _ Hmajor)).
  rewrite (split_free "." minor (Hdot _ Hminor)).
  cbn [nth nth_error].
  unfold JS.mul, JS.add, JS.ToNumber, JS.StringToNumber.
  rewrite Hmajor, Hminor. reflexivity.
Qed.

(** Without a patch component every operand of the sum is a number, and the
    comparison of cli.js:137 then orders two-component versions as releases
    are ordered, as long as the minors stay below 1000 and the sums below
    2^53. *)
Theorem short_releases_are_ordered (a1 a2 b1 b2 : Z) :
  0 <= a1 -> 0 <= a2 < 1000 ->
  0 <= b1 -> 0 <= b2 < 1000 ->
  a1 * 1000000 + a2 * 1000 < MAX_SAFE ->
  b1 * 1000000 + b2 * 1000 < MAX_SAFE ->
  parseVersion (str (short_release_text a1 a2))
  = inr (JS.PNumber (JS.Fin (a1 * 1000000 + a2 * 1000)))
  /\ is_newer (short_release_text a1 a2) (short_release_text b1 b2)
     = release_newer (a1, a2, 0) (b1, b2, 0).
Proof.
  intros Ha1 Ha2 Hb1 Hb2 _ _.
  assert (Hpv : forall x y, 0 <= x -> 0 <= y ->
            parseVersion (str (short_release_text x y))
            = inr (JS.PNumber (JS.Fin (x * 1000000 + y * 1000)))).
  { intros x y Hx Hy. unfold short_release_text.
    rewrite parseVersion_two_components by now apply all_digits_Z_to_string.
    rewrite !digits_value_Z_to_string by assumption.
    now rewrite Z.add_0_r. }
  split; [apply Hpv; lia|].
  unfold is_newer. rewrite !Hpv by lia.
  cbn [JS.gt JS.ToNumber JS.num_gt release_newer].
  rewrite Z.ltb_irrefl, andb_false_r, orb_false_r.
  apply eq_true_iff_eq.
  rewrite orb_true_iff, andb_true_iff, !Z.ltb_lt, Z.eqb_eq. lia.
Qed.

(** Components after the third do not reach the result. *)
Theorem parseVersion_ignores_fourth_component (major minor patch rest : string) :
  JS.all_digits major = true ->
  JS.all_digits minor = true ->
  JS.all_digits patch = true ->
  free_of "-" rest = true ->
  parseVersion (str (major ++ "." ++ minor ++ "." ++ patch ++ "." ++ rest))
  = parseVersion (str (major ++ "." ++ minor ++ "." ++ patch)).
Proof.
  intros Hmajor Hminor Hpatch Hrest.
  rewrite (parseVersion_three_components _ _ _ Hmajor Hminor Hpatch).
  assert (Hdash : forall s, JS.all_digits s = true -> free_of "-" s = true)
    by (intros s; now apply digits_free_of).
  assert (Hdot : forall s, JS.all_digits s = true -> free_of "." s = true)
    by (intros s; now apply digits_free_of).
  unfold parseVersion, str.
  rewrite (split_free "-").
  2:{ repeat (apply free_of_app; auto; try reflexivity). }
  cbn [hd].
  change ("." ++ minor ++ "." ++ patch ++ "." ++ rest)
    with (String "." (minor ++ "." ++ patch ++ "." ++ rest)).
  rewrite (split_app "." major _ (Hdot _ Hmajor)).
  change ("." ++ patch ++ "." ++ rest) with (String "." (patch ++ "." ++ rest)).
  rewrite (split_app "." minor _ (Hdot _ Hminor)).
  change ("." ++ rest) with (String "." rest).
  rewrite (split_app "." patch _ (Hdot _ Hpatch)).
  cbn [nth nth_error].
  unfold JS.mul, JS.add, JS.ToNumber, JS.StringToNumber.
  rewrite Hmajor, Hminor. reflexivity.
Qed.

(** *** More on the run of [main] *)

Lemma argv2_init_iff (w : World) :
  argv2_is_init w = true <-> nth_error (argv w) 2 = Some "init".
Proof.
  split; [|apply argv2_init].
  intros H. destruct (nth_error (argv w) 2) as [a|] eqn:E.
  - destruct (String.eqb_spec a "init") as [->|Hne]; [reflexivity|].
    rewrite argv2_not_init in H; [discriminate|].
    rewrite E. congruence.
  - rewrite argv2_not_init in H; [discriminate|]. rewrite E. discriminate.
Qed.

Lemma is_terminal_iff (w : World) (t0 : Z) :
  is_terminal w t0 = true
  <-> currentVersion w <> HEAD
      /\ (CLI_DEPRECATION_DATE <= t0
          \/ JS.startsWith (currentVersion w) "0.76" = true).
Proof.
  unfold is_terminal.
  rewrite andb_true_iff, orb_true_iff, negb_true_iff, Z.leb_le, String.eqb_neq.
  reflexivity.
Qed.

Lemma days_remaining_bounds (t d : Z) :
  days_remaining t = d
  <-> (d - 1) * day < CLI_DEPRECATION_DATE - t <= d * day.
Proof.
  unfold days_remaining, day. split.
  - intros <-. unfold JS.ceil_div.
    pose proof (Z.div_mod (- (CLI_DEPRECATION_DATE - t)) 86400000) as Hdm.
    pose proof (Z.mod_pos_bound (- (CLI_DEPRECATION_DATE - t)) 86400000) as Hb.
    lia.
  - intros H. apply ceil_div_unique; lia.
Qed.

Section Run.

Variable chalk : list style -> string -> string.
Variable JSON_parse : string -> option JS.value.
Variable toLocaleDateString : Z -> string.

Local Abbreviation main := (main chalk JSON_parse toLocaleDateString).
Local Abbreviation result := (result chalk JSON_parse toLocaleDateString).
Local Abbreviation output := (output chalk JSON_parse toLocaleDateString).
Local Abbreviation lines := (gate_lines chalk toLocaleDateString).
Local Abbreviation run_of := (output_run chalk JSON_parse toLocaleDateString).
Local Abbreviation settled := (settled_run chalk JSON_parse toLocaleDateString).

Lemma gate_lines_deprecation (w : World) (t0 t1 : Z) (e : event) :
  In e (lines w t0 t1) -> deprecation_message e = true.
Proof.
  unfold gate_lines.
  destruct (is_terminal w t0), (argv2_is_init w),
    (JS.startsWith (currentVersion w) "0.75"); cbn;
    intuition (subst; reflexivity).
Qed.

Lemma stalls_opt_out (w : World) : stalls (opt_out w) = false.
Proof.
  unfold stalls, check_enabled, getenv. cbn. now rewrite andb_false_r.
Qed.

Lemma sent_opt_out (w : World) : sent (opt_out w) = false.
Proof.
  unfold sent, check_enabled, getenv. cbn. now rewrite andb_false_r.
Qed.

(** With [SKIP] set the run is the gate alone. *)
Lemma opt_out_run (w : World) :
  output (opt_out w) = lines w (clock w 0) (clock w 1)
  /\ result (opt_out w) = gate_result w (clock w 0).
Proof.
  destruct (run_of (opt_out w)) as (advisory & Hout & Hres & Hadv).
  rewrite stalls_opt_out in Hout, Hres. rewrite sent_opt_out in Hadv.
  destruct Hadv as [[_ ->] | [Habs _]]; [|discriminate].
  split; assumption.
Qed.

Lemma failed_lookup_run (w : World) (s : state) :
  check_enabled w = true ->
  lookup_fails JSON_parse w = true ->
  main_version_check chalk JSON_parse w s
  = (Ret tt, {| trace := trace s ++ [Lookup (DEFAULT_REGISTRY_HOST w)];
                ticks := ticks s |}).
Proof.
  unfold check_enabled, lookup_fails, main_version_check.
  intros -> Hfail. unfold getLatestVersion.
  destruct (registry w (DEFAULT_REGISTRY_HOST w)) as [e|e|text|]; run_M;
    [discriminate | reflexivity | | discriminate].
  destruct (JSON_parse text) as [parsed|]; run_M; [|reflexivity].
  destruct (JS.get parsed "version") as [e|latest]; run_M; [reflexivity|].
  destruct (parseVersion latest) as [e|l]; run_M; [reflexivity|discriminate].
Qed.

(** A request that is sent and fails in any of the ways of [lookup_fails]
    leaves the run as it is with [SKIP] set, the lookup itself apart. *)
Lemma failed_lookup_is_dropped (w : World) :
  check_enabled w = true ->
  lookup_fails JSON_parse w = true ->
  output w = Lookup (DEFAULT_REGISTRY_HOST w) :: output (opt_out w)
  /\ result w = result (opt_out w).
Proof.
  intros Hen Hfail.
  destruct (opt_out_run w) as [-> ->].
  rewrite output_eq, result_eq, main_eq.
  rewrite (failed_lookup_run w initial Hen Hfail), main_gate_run.
  cbn. auto.
Qed.

Lemma unsent_lookup_run (w : World) (s : state) (e : JS.Error) :
  registry w (DEFAULT_REGISTRY_HOST w) = NotSent e ->
  main_version_check chalk JSON_parse w s = (Ret tt, s).
Proof.
  intros Hreg. unfold main_version_check.
  destruct (isNpxRuntime w && negb (JS.ToBoolean (getenv w "SKIP"))
            && negb (currentVersion w =? HEAD)%string); [|reflexivity].
  unfold getLatestVersion. rewrite Hreg. reflexivity.
Qed.

(** A lookup that resolves to a string: one lookup, then the advisory when
    the comparison of cli.js:137 holds. *)
Lemma successful_lookup_run (w : World) (s : state)
    (text : string) (parsed : JS.value) (latest : string) :
  check_enabled w = true ->
  registry w (DEFAULT_REGISTRY_HOST w) = Body text ->
  JSON_parse text = Some parsed ->
  JS.get parsed "version" = inr (str latest) ->
  main_version_check chalk JSON_parse w s
  = (Ret tt,
     {| trace := trace s
                 ++ Lookup (DEFAULT_REGISTRY_HOST w)
                    :: (if is_newer latest (currentVersion w)
                        then [Warn UpgradeAdvisory
                                (upgrade_message chalk w latest)]
                        else []);
        ticks := ticks s |}).
Proof.
  unfold check_enabled, main_version_check.
  intros -> Hreg Hparse Hget. unfold getLatestVersion.
  rewrite Hreg. run_M. rewrite Hparse, Hget. run_M.
  unfold is_newer, parseVersion, str. run_M.
  match goal with
  | |- context [JS.gt ?l ?c] => destruct (JS.gt l c)
  end; run_M; [rewrite <- app_assoc|]; reflexivity.
Qed.

Lemma successful_lookup_output (w : World)
    (text : string) (parsed : JS.value) (latest : string) :
  check_enabled w = true ->
  registry w (DEFAULT_REGISTRY_HOST w) = Body text ->
  JSON_parse text = Some parsed ->
  JS.get parsed "version" = inr (str latest) ->
  output w
  = Lookup (DEFAULT_REGISTRY_HOST w)
    :: (if is_newer latest (currentVersion w)
        then [Warn UpgradeAdvisory (upgrade_message chalk w latest)]
        else [])
    ++ lines w (clock w 0) (clock w 1).
Proof.
  intros Hen Hreg Hparse Hget.
  rewrite output_eq, main_eq.
  rewrite (successful_lookup_run w initial text parsed latest Hen Hreg Hparse Hget).
  rewrite main_gate_run. reflexivity.
Qed.

(** **** The upgrade advisory *)

(** When the lookup resolves to a version string, that string and the
    running version being plain versions (components of at most four
    digits), the upgrade advisory is printed exactly when the comparison
    of cli.js:137 holds, and its text is that of cli.js:138 for the running
    and the latest version. *)
Theorem upgrade_advisory_iff_newer (w : World)
    (text : string) (parsed : JS.value) (latest : string) :
  check_enabled w = true ->
  registry w (DEFAULT_REGISTRY_HOST w) = Body text ->
  JSON_parse text = Some parsed ->
  JS.get parsed "version" = inr (str latest) ->
  plain_version latest = true ->
  plain_version (currentVersion w) = true ->
  ((exists line, In (Warn UpgradeAdvisory line) (output w))
   <-> is_newer latest (currentVersion w) = true)
  /\ (forall line, In (Warn UpgradeAdvisory line) (output w) ->
      line
      = nl ++ "  " ++ chalk [bold; yellow] "WARNING:" ++ " You should run "
        ++ chalk [white; bold] "npx react-native@latest"
        ++ " to ensure you're always using the most current version of the CLI. NPX has cached version ("
        ++ chalk [bold; yellow] (currentVersion w)
        ++ ") != current release (" ++ chalk [bold; green] latest ++ ")"
        ++ nl ++ "  ").
Proof.
  intros Hen Hreg Hparse Hget _ _.
  rewrite (successful_lookup_output w text parsed latest Hen Hreg Hparse Hget).
  assert (Hgate : forall line,
             ~ In (Warn UpgradeAdvisory line) (lines w (clock w 0) (clock w 1))).
  { intros line Hin. apply gate_lines_deprecation in Hin. discriminate. }
  destruct (is_newer latest (currentVersion w)); cbn [app In]; split.
  - split; [reflexivity|]. intros _. eexists. right. left. reflexivity.
  - intros line [Habs | [Heq | Hin]];
      [discriminate | injection Heq as <-; reflexivity |].
    now apply Hgate in Hin.
  - split; [|discriminate].
    intros [line [Habs | Hin]]; [discriminate | now apply Hgate in Hin].
  - intros line [Habs | Hin]; [discriminate | now apply Hgate in Hin].
Qed.

(** When the registry reports the very version that is running, no upgrade
    advisory is printed. *)
Theorem no_advisory_for_running_version (w : World)
    (text : string) (parsed : JS.value) :
  check_enabled w = true ->
  registry w (DEFAULT_REGISTRY_HOST w) = Body text ->
  JSON_parse text = Some parsed ->
  JS.get parsed "version" = inr (str (currentVersion w)) ->
  forall line, ~ In (Warn UpgradeAdvisory line) (output w).
Proof.
  intros Hen Hreg Hparse Hget line.
  rewrite (successful_lookup_output w text parsed _ Hen Hreg Hparse Hget).
  rewrite is_newer_irreflexive. cbn [app In].
  intros [Habs | Hin]; [discriminate|].
  apply gate_lines_deprecation in Hin. discriminate.
Qed.

(** A body that is JSON but carries no version string ([null], an object
    without [version], a [version] that is a number or an object) is
    dropped like a failed request: the run is the one with [SKIP] set, the
    lookup apart. *)
Theorem body_without_version_is_suppressed (w : World)
    (text : string) (parsed : JS.value) :
  check_enabled w = true ->
  registry w (DEFAULT_REGISTRY_HOST w) = Body text ->
  JSON_parse text = Some parsed ->
  (forall v, JS.get parsed "version" = inr v -> is_string v = false) ->
  output w = Lookup (DEFAULT_REGISTRY_HOST w) :: output (opt_out w)
  /\ result w = result (opt_out w).
Proof.
  intros Hen Hreg Hparse Hver.
  assert (Hf : lookup_fails JSON_parse w = true).
  { unfold lookup_fails. rewrite Hreg, Hparse.
    destruct (JS.get parsed "version") as [e|v]; [reflexivity|].
    specialize (Hver v eq_refl).
    destruct v as [[| | | |v]| |]; try reflexivity. discriminate. }
  exact (failed_lookup_is_dropped w Hen Hf).
Qed.

(** A lookup that fails before or after its request is dropped: when the
    registry host is rejected by [new URL] or [get] the run is the one with
    [SKIP] set; when the request emits ['error'] or the body is not JSON the
    run is the one with [SKIP] set, plus the lookup. *)
Theorem failed_lookup_is_suppressed (w : World) :
  check_enabled w = true ->
  ((exists e, registry w (DEFAULT_REGISTRY_HOST w) = NotSent e) ->
   output w = output (opt_out w) /\ result w = result (opt_out w))
  /\ ((exists e, registry w (DEFAULT_REGISTRY_HOST w) = RequestError e)
      \/ (exists text, registry w (DEFAULT_REGISTRY_HOST w) = Body text
                       /\ JSON_parse text = None) ->
      output w = Lookup (DEFAULT_REGISTRY_HOST w) :: output (opt_out w)
      /\ result w = result (opt_out w)).
Proof.
  intros Hen. split.
  - intros [e Hreg]. destruct (opt_out_run w) as [-> ->].
    rewrite output_eq, result_eq, main_eq.
    rewrite (unsent_lookup_run w initial e Hreg), main_gate_run.
    cbn. auto.
  - intros Hfail. apply failed_lookup_is_dropped; [exact Hen|].
    unfold lookup_fails.
    destruct Hfail as [[e ->] | (text & -> & ->)]; reflexivity.
Qed.

(** A lookup that is never settled keeps [main] from everything after
    cli.js:136: the run ends waiting, and that is the only way it does;
    the request is all it has done by then. *)
Theorem unsettled_lookup_stops_main (w : World) :
  (result w = Pending
   <-> check_enabled w = true
       /\ registry w (DEFAULT_REGISTRY_HOST w) = Unsettled)
  /\ (result w = Pending -> output w = [Lookup (DEFAULT_REGISTRY_HOST w)]).
Proof.
  assert (Hst : stalls w = true
                <-> check_enabled w = true
                    /\ registry w (DEFAULT_REGISTRY_HOST w) = Unsettled).
  { unfold stalls. destruct (check_enabled w); cbn [andb].
    - destruct (registry w (DEFAULT_REGISTRY_HOST w)); split;
        try discriminate; try (intros [_ Habs]; discriminate); auto.
    - split; [discriminate | intros [Habs _]; discriminate]. }
  destruct (run_of w) as (advisory & Hout & Hres & Hadv).
  assert (Hp : result w = Pending <-> stalls w = true).
  { rewrite Hres. destruct (stalls w); split; auto; try discriminate.
    unfold gate_result. destruct (is_terminal w (clock w 0));
      [discriminate | intros H; now apply delegation_not_pending in H]. }
  split; [now rewrite Hp|].
  intros Hpend. apply Hp in Hpend. rewrite Hpend in Hout, Hadv.
  rewrite Hout, app_nil_r.
  destruct Hadv as [[Hn _] | [_ [-> | [Habs _]]]];
    [|reflexivity | discriminate].
  rewrite (stalls_sent w Hpend) in Hn. discriminate.
Qed.

(** At most one lookup is made, it comes before anything is printed, and it
    goes to the registry of [npm_config_registry] when that is set and to
    registry.npmjs.org otherwise. *)
Theorem lookup_comes_first (w : World) :
  (exists rest,
     (output w = rest \/ output w = Lookup (DEFAULT_REGISTRY_HOST w) :: rest)
     /\ Forall (fun e => is_lookup e = false) rest)
  /\ (forall host,
      env w "npm_config_registry" = Some host ->
      DEFAULT_REGISTRY_HOST w = host)
  /\ (env w "npm_config_registry" = None ->
      DEFAULT_REGISTRY_HOST w = "https://registry.npmjs.org/").
Proof.
  split; [|unfold DEFAULT_REGISTRY_HOST; split; [intros host ->|intros ->];
           reflexivity].
  destruct (run_of w) as (advisory & Hout & _ & Hadv).
  assert (Hgate : Forall (fun e => is_lookup e = false)
                    (if stalls w then [] else lines w (clock w 0) (clock w 1))).
  { destruct (stalls w); [constructor|].
    apply Forall_forall. intros e He.
    now apply gate_lines_no_lookup in He. }
  destruct Hadv as [[_ ->] | [_ [-> | [_ [line ->]]]]]; rewrite Hout; cbn [app].
  - eexists. split; [left; reflexivity | exact Hgate].
  - eexists. split; [right; reflexivity | exact Hgate].
  - eexists. split; [right; reflexivity|]. now constructor.
Qed.

(** **** How a run ends *)

(** [main] exits exactly when it reaches the gate (it is not left waiting
    for the lookup) under the terminal condition: a release other than
    [HEAD], at or past the cutoff or on 0.76.  The status is then 1; there
    is no other exit. *)
Theorem exit_iff_terminal (w : World) (status : Z) :
  result w = Exit status
  <-> status = 1
      /\ currentVersion w <> HEAD
      /\ (CLI_DEPRECATION_DATE <= clock w 0
          \/ JS.startsWith (currentVersion w) "0.76" = true)
      /\ stalls w = false.
Proof.
  destruct (run_of w) as (advisory & _ & Hres & _).
  rewrite Hres. destruct (stalls w).
  - split; [discriminate | intros (_ & _ & _ & Habs); discriminate].
  - unfold gate_result. split.
    + intros H. destruct (is_terminal w (clock w 0)) eqn:Ht;
        [|now apply delegation_not_exit in H].
      injection H as <-. apply is_terminal_iff in Ht. tauto.
    + intros (-> & Hhead & Hterm & _).
      now rewrite (is_terminal_true w _ Hterm Hhead).
Qed.

(** As long as [main] is not left waiting for the lookup, how it ends
    depends on the running version, the first reading of the clock and the
    resolution of the delegate only: the environment, the answer of the
    registry and the arguments have no part in it. *)
Theorem result_ignores_environment_and_registry (w1 w2 : World) :
  stalls w1 = false ->
  stalls w2 = false ->
  currentVersion w1 = currentVersion w2 ->
  clock w1 0 = clock w2 0 ->
  community_cli w1 = community_cli w2 ->
  name w1 = name w2 ->
  result w1 = result w2.
Proof.
  intros Hs1 Hs2 Hv Hc Hcli Hname.
  destruct (settled w1 Hs1) as (? & _ & -> & _).
  destruct (settled w2 Hs2) as (? & _ & -> & _).
  unfold gate_result, is_terminal, delegation.
  now rewrite Hv, Hc, Hcli, Hname.
Qed.

(** Once a release exits at some date it exits at every later date at which
    [main] reaches the gate. *)
Theorem terminal_is_permanent (w1 w2 : World) :
  currentVersion w1 = currentVersion w2 ->
  clock w1 0 <= clock w2 0 ->
  stalls w2 = false ->
  result w1 = Exit 1 ->
  result w2 = Exit 1.
Proof.
  intros Hv Hc Hs2 Hexit.
  destruct (settled w2 Hs2) as (? & _ & -> & _).
  destruct (run_of w1) as (? & _ & Hres & _).
  rewrite Hres in Hexit.
  destruct (stalls w1); [discriminate|].
  unfold gate_result in *.
  destruct (is_terminal w1 (clock w1 0)) eqn:Ht1;
    [|now apply delegation_not_exit in Hexit].
  apply is_terminal_iff in Ht1. rewrite Hv in Ht1.
  assert (Ht2 : is_terminal w2 (clock w2 0) = true)
    by (apply is_terminal_iff; intuition lia).
  now rewrite Ht2.
Qed.

(** **** Which notice is printed *)

(** The light notice is printed exactly when the first positional argument
    is "init" and [main] goes through the gate without exiting; being on a
    [HEAD] build does not exempt from it.  Its text is that of cli.js:74. *)
Theorem light_notice_iff (w : World) :
  ((exists line, In (Warn LightNotice line) (output w))
   <-> nth_error (argv w) 2 = Some "init"
       /\ (forall status, result w <> Exit status)
       /\ result w <> Pending)
  /\ (forall line, In (Warn LightNotice line) (output w) ->
      line
      = nl ++ "Running: "
        ++ chalk [grey; bold] "npx @react-native-community/cli init" ++ nl).
Proof.
  destruct (run_of w) as (advisory & Hout & Hres & Hadv).
  pose proof (advisory_no_deprecation w advisory Hadv) as Hadv'.
  assert (Hnot : forall line, ~ In (Warn LightNotice line) advisory).
  { intros line Hin. apply Hadv' in Hin. discriminate. }
  rewrite Hout, Hres, <- argv2_init_iff.
  destruct (stalls w).
  - rewrite app_nil_r. split.
    + split; [intros [line Hin]; now apply Hnot in Hin|].
      intros (_ & _ & Habs). now elim Habs.
    + intros line Hin. now apply Hnot in Hin.
  - assert (Hgate : forall line,
               In (Warn LightNotice line) (lines w (clock w 0) (clock w 1)) ->
               is_terminal w (clock w 0) = false /\ argv2_is_init w = true
               /\ line = running_message chalk).
    { intros line Hin. unfold gate_lines in Hin.
      destruct (is_terminal w (clock w 0)), (argv2_is_init w),
        (JS.startsWith (currentVersion w) "0.75");
        cbn [andb app In] in Hin; intuition (try discriminate; congruence). }
    unfold gate_result. split; [split|].
    + intros [line Hin]. apply in_app_or in Hin.
      destruct Hin as [Hin | Hin]; [now apply Hnot in Hin|].
      apply Hgate in Hin. destruct Hin as (-> & Hi & _).
      repeat split; auto.
      * intros status. apply delegation_not_exit.
      * apply delegation_not_pending.
    + intros (Hi & Hlive & _).
      destruct (is_terminal w (clock w 0)) eqn:Ht; [now elim (Hlive 1)|].
      exists (running_message chalk). apply in_or_app. right.
      unfold gate_lines. rewrite Ht, Hi. apply in_or_app. right. now left.
    + intros line Hin. apply in_app_or in Hin.
      destruct Hin as [Hin | Hin]; [now apply Hnot in Hin|].
      apply Hgate in Hin. destruct Hin as (_ & _ & ->). reflexivity.
Qed.

(** The schedule warning is printed exactly when [main] reaches the gate on
    a 0.75 release called with "init" before the cutoff. *)
Theorem schedule_warning_iff (w : World) :
  (exists line, In (Warn ScheduleWarning line) (output w))
  <-> JS.startsWith (currentVersion w) "0.75" = true
      /\ nth_error (argv w) 2 = Some "init"
      /\ clock w 0 < CLI_DEPRECATION_DATE
      /\ stalls w = false.
Proof.
  destruct (run_of w) as (advisory & Hout & _ & Hadv).
  pose proof (advisory_no_deprecation w advisory Hadv) as Hadv'.
  assert (Hnot : forall line, ~ In (Warn ScheduleWarning line) advisory).
  { intros line Hin. apply Hadv' in Hin. discriminate. }
  rewrite Hout, <- argv2_init_iff.
  assert (Hterm : JS.startsWith (currentVersion w) "0.75" = true ->
                  (is_terminal w (clock w 0) = false
                   <-> clock w 0 < CLI_DEPRECATION_DATE)).
  { intros H75. split; [|now apply not_terminal_075].
    intros Ht. destruct (Z.lt_ge_cases (clock w 0) CLI_DEPRECATION_DATE) as [|Hge];
      [assumption|].
    rewrite is_terminal_true in Ht; [discriminate | now left |].
    intros Hhead. destruct (startsWith_075 _ H75) as [_ Hne].
    rewrite Hhead in Hne. discriminate. }
  destruct (stalls w).
  - rewrite app_nil_r. split; [intros [line Hin]; now apply Hnot in Hin|].
    intros (_ & _ & _ & Habs). discriminate.
  - split.
    + intros [line Hin]. apply in_app_or in Hin.
      destruct Hin as [Hin | Hin]; [now apply Hnot in Hin|].
      unfold gate_lines in Hin.
      destruct (is_terminal w (clock w 0)) eqn:Ht.
      * destruct (argv2_is_init w); cbn [In] in Hin; intuition discriminate.
      * destruct (JS.startsWith (currentVersion w) "0.75") eqn:H75,
          (argv2_is_init w) eqn:Hi; cbn [andb app In] in Hin;
          intuition discriminate.
    + intros (H75 & Hi & Hlt & _). apply (Hterm H75) in Hlt.
      unfold gate_lines. rewrite Hlt, H75, Hi. cbn [andb].
      eexists. apply in_or_app. right. left. reflexivity.
Qed.

(** The terminal notice is printed exactly when the first positional
    argument is "init" under the terminal condition, and then no other
    deprecation message is. *)
Theorem terminal_notice_iff (w : World) :
  ((exists line, In (Warn TerminalNotice line) (output w))
   <-> nth_error (argv w) 2 = Some "init" /\ result w = Exit 1)
  /\ (forall line, In (Warn TerminalNotice line) (output w) ->
      forall e, In e (output w) -> deprecation_message e = true ->
      e = Warn TerminalNotice (deprecated_message chalk)).
Proof.
  destruct (run_of w) as (advisory & Hout & Hres & Hadv).
  pose proof (advisory_no_deprecation w advisory Hadv) as Hadv'.
  assert (Hnot : forall line, ~ In (Warn TerminalNotice line) advisory).
  { intros line Hin. apply Hadv' in Hin. discriminate. }
  rewrite Hout, Hres, <- argv2_init_iff.
  destruct (stalls w).
  - rewrite app_nil_r. split; [split|].
    + intros [line Hin]. now apply Hnot in Hin.
    + intros [_ Habs]. discriminate.
    + intros line Hin. now apply Hnot in Hin.
  - assert (Hgate : forall line,
               In (Warn TerminalNotice line) (lines w (clock w 0) (clock w 1)) ->
               is_terminal w (clock w 0) = true /\ argv2_is_init w = true).
    { intros line Hin. unfold gate_lines in Hin.
      destruct (is_terminal w (clock w 0)), (argv2_is_init w),
        (JS.startsWith (currentVersion w) "0.75");
        cbn [andb app In] in Hin; intuition discriminate. }
    split; [split|].
    + intros [line Hin]. apply in_app_or in Hin.
      destruct Hin as [Hin | Hin]; [now apply Hnot in Hin|].
      apply Hgate in Hin. destruct Hin as [Ht Hi].
      unfold gate_result. now rewrite Ht.
    + intros [Hi Hexit]. unfold gate_result in Hexit.
      destruct (is_terminal w (clock w 0)) eqn:Ht;
        [|now apply delegation_not_exit in Hexit].
      unfold gate_lines. rewrite Ht, Hi.
      eexists. apply in_or_app. right. left. reflexivity.
    + intros line Hin e He Hdep. apply in_app_or in Hin, He.
      destruct Hin as [Hin | Hin]; [now apply Hnot in Hin|].
      apply Hgate in Hin. destruct Hin as [Ht Hi].
      destruct He as [He | He]; [apply Hadv' in He; congruence|].
      unfold gate_lines in He. rewrite Ht, Hi in He.
      destruct He as [<- | []]. reflexivity.
Qed.

(** When [main] exits on "init", the last thing it has printed is the
    terminal notice, with the text of cli.js:117, and nothing before it is
    a deprecation message. *)
Theorem terminal_notice_is_last (w : World) :
  result w = Exit 1 ->
  nth_error (argv w) 2 = Some "init" ->
  exists before,
    output w
    = (before
       ++ [Warn TerminalNotice
             (nl ++ chalk [yellow] "⚠" ++ "️ The `init` command is deprecated."
              ++ nl ++ nl
              ++ "- Switch to "
              ++ chalk [dim] "npx @react-native-community/cli init"
              ++ " for the identical behavior." ++ nl
              ++ "- Refer to the documentation for information about alternative tools: "
              ++ chalk [dim] "https://reactnative.dev/docs/getting-started")])%list
    /\ Forall (fun e => deprecation_message e = false) before.
Proof.
  intros Hexit Hinit.
  destruct (run_of w) as (advisory & Hout & Hres & Hadv).
  pose proof (advisory_no_deprecation w advisory Hadv) as Hadv'.
  rewrite Hres in Hexit. destruct (stalls w); [discriminate|].
  unfold gate_result in Hexit.
  destruct (is_terminal w (clock w 0)) eqn:Ht;
    [|now apply delegation_not_exit in Hexit].
  unfold gate_lines in Hout. rewrite Ht, (argv2_init w Hinit) in Hout.
  exists advisory. split; [exact Hout|].
  apply Forall_forall. exact Hadv'.
Qed.

(** **** The count of days *)

Lemma schedule_line (w : World) :
  stalls w = false ->
  JS.startsWith (currentVersion w) "0.75" = true ->
  nth_error (argv w) 2 = Some "init" ->
  clock w 0 < CLI_DEPRECATION_DATE ->
  In (Warn ScheduleWarning
        (schedule_message chalk toLocaleDateString
           (days_remaining (clock w 1))))
     (output w)
  /\ forall status, result w <> Exit status.
Proof.
  intros Hs H75 Hinit Hdate.
  destruct (settled w Hs) as (advisory & Hout & Hres & _).
  unfold gate_lines in Hout. unfold gate_result in Hres.
  rewrite (not_terminal_075 w _ H75 Hdate) in Hout, Hres.
  rewrite (argv2_init w Hinit), H75 in Hout. cbn [andb] in Hout.
  split.
  - rewrite Hout. apply in_or_app. right. left. reflexivity.
  - intros status. rewrite Hres. apply delegation_not_exit.
Qed.

(** Up to one day the count is followed by "day", without the plural. *)
Lemma schedule_message_singular (d : Z) :
  d <= 1 ->
  exists before after,
    schedule_message chalk toLocaleDateString d
    = before
      ++ chalk [bgRed; white; bold] ("(" ++ JS.Z_to_string d ++ " day)")
      ++ after.
Proof.
  intros Hd.
  exists (nl ++ chalk [yellow] "⚠️" ++ " The `init` command is deprecated."
          ++ nl ++ "The behavior will be changed on "
          ++ chalk [white; bold] (toLocaleDateString CLI_DEPRECATION_DATE)
          ++ " ").
  exists ("." ++ nl ++ nl ++ switch_and_refer chalk).
  unfold schedule_message, emphasis.
  assert (H10 : (d <? 10) = true) by (apply Z.ltb_lt; lia).
  assert (H1 : (1 <? d) = false) by (apply Z.ltb_ge; lia).
  rewrite H10, H1.
  change (" day" ++ "" ++ ")") with " day)".
  now rewrite !append_assoc.
Qed.

(** The two clock readings are separate.  When [main] reaches the gate with
    the first reading before the cutoff and the second is not, it still
    prints the schedule warning, now for zero or a negative number of days,
    and does not exit. *)
Theorem schedule_warning_when_cutoff_passes_between_readings (w : World) :
  stalls w = false ->
  JS.startsWith (currentVersion w) "0.75" = true ->
  nth_error (argv w) 2 = Some "init" ->
  clock w 0 < CLI_DEPRECATION_DATE <= clock w 1 ->
  exists daysRemaining,
    daysRemaining <= 0
    /\ In (Warn ScheduleWarning
             (schedule_message chalk toLocaleDateString daysRemaining))
          (output w)
    /\ (exists before after,
          schedule_message chalk toLocaleDateString daysRemaining
          = before
            ++ chalk [bgRed; white; bold]
                 ("(" ++ JS.Z_to_string daysRemaining ++ " day)")
            ++ after)
    /\ forall status, result w <> Exit status.
Proof.
  intros Hs H75 Hinit [Hbefore Hafter].
  destruct (schedule_line w Hs H75 Hinit Hbefore) as [Hin Hlive].
  exists (days_remaining (clock w 1)).
  assert (Hd : days_remaining (clock w 1) <= 0).
  { unfold days_remaining, JS.ceil_div.
    assert (0 <= - (CLI_DEPRECATION_DATE - clock w 1) / 86400000)
      by (apply Z.div_pos; lia).
    lia. }
  repeat split; auto.
  apply schedule_message_singular. lia.
Qed.

(** During the last day before the cutoff the warning reads "(1 day)". *)
Theorem schedule_warning_on_the_last_day (w : World) :
  stalls w = false ->
  JS.startsWith (currentVersion w) "0.75" = true ->
  nth_error (argv w) 2 = Some "init" ->
  clock w 0 < CLI_DEPRECATION_DATE ->
  CLI_DEPRECATION_DATE - day <= clock w 1 < CLI_DEPRECATION_DATE ->
  In (Warn ScheduleWarning (schedule_message chalk toLocaleDateString 1))
     (output w)
  /\ exists before after,
       schedule_message chalk toLocaleDateString 1
       = before ++ chalk [bgRed; white; bold] "(1 day)" ++ after.
Proof.
  intros Hs H75 Hinit Hbefore Hday.
  destruct (schedule_line w Hs H75 Hinit Hbefore) as [Hin _].
  assert (Hd : days_remaining (clock w 1) = 1).
  { unfold days_remaining. apply ceil_div_unique; unfold day in Hday; lia. }
  rewrite Hd in Hin. split; [exact Hin|].
  apply (schedule_message_singular 1). lia.
Qed.

End Run.

(** **** Across terminals and locales *)

Lemma deprecation_sites (chalk : list style -> string -> string)
    (JSON_parse : string -> option JS.value) (toLocaleDateString : Z -> string)
    (w : World) :
  stalls w = false ->
  map site_of
    (filter deprecation_message (output chalk JSON_parse toLocaleDateString w))
  = if is_terminal w (clock w 0)
    then (if argv2_is_init w then [Some TerminalNotice] else [])
    else ((if JS.startsWith (currentVersion w) "0.75" && argv2_is_init w
           then [Some ScheduleWarning] else [])
          ++ (if argv2_is_init w then [Some LightNotice] else []))%list.
Proof.
  intros Hs.
  destruct (settled_run chalk JSON_parse toLocaleDateString w Hs)
    as (advisory & -> & _ & Hadv).
  rewrite filter_app.
  assert (Ha : filter deprecation_message advisory = []).
  { induction Hadv as [|e l He _ IH]; [reflexivity|].
    cbn. now rewrite He. }
  rewrite Ha. cbn [app]. unfold gate_lines.
  destruct (is_terminal w (clock w 0)), (argv2_is_init w),
    (JS.startsWith (currentVersion w) "0.75"); reflexivity.
Qed.

(** Which deprecation messages a run prints, and in which order, depends
    only on the running version, the first positional argument and the
    first reading of the clock, as long as [main] is not left waiting for
    the lookup: the advisory check adds none and removes none, and neither
    do the colour support of the terminal nor the locale. *)
Theorem deprecation_messages_ignore_advisory
    (chalk1 chalk2 : list style -> string -> string)
    (parse1 parse2 : string -> option JS.value)
    (date1 date2 : Z -> string) (w1 w2 : World) :
  stalls w1 = false ->
  stalls w2 = false ->
  currentVersion w1 = currentVersion w2 ->
  nth_error (argv w1) 2 = nth_error (argv w2) 2 ->
  clock w1 0 = clock w2 0 ->
  map site_of (filter deprecation_message (output chalk1 parse1 date1 w1))
  = map site_of (filter deprecation_message (output chalk2 parse2 date2 w2)).
Proof.
  intros Hs1 Hs2 Hv Hargv Hc.
  rewrite !deprecation_sites by assumption.
  unfold is_terminal, argv2_is_init. now rewrite Hv, Hargv, Hc.
Qed.

(** *** More on loading as a library *)

(** Imported as a library, the module exports the delegate package exactly
    when [require] resolves, and the stub exactly when [require] throws an
    error object or any value other than [null] and [undefined].  A thrown
    [null] or [undefined] makes the catch block itself throw: a TypeError
    reaches the importer, and that is the only error that does. *)
Theorem load_exports_or_type_error (w : World) :
  (load w = inr community <-> community_cli w = Loaded)
  /\ (load w = inr deprecated_stub
      <-> (exists e, community_cli w = Failed e)
          \/ (exists thrown, community_cli w = FailedWith thrown
                             /\ thrown <> JS.PNull
                             /\ thrown <> JS.PUndefined))
  /\ (load w = inl JS.TypeError
      <-> community_cli w = FailedWith JS.PNull
          \/ community_cli w = FailedWith JS.PUndefined)
  /\ (forall err, load w = inl err -> err = JS.TypeError).
Proof.
  unfold load. destruct (community_cli w) as [|e|thrown].
  - repeat split; try discriminate; auto.
    + intros [[e He] | (t & Ht & _)]; discriminate.
    + intros [H | H]; discriminate.
  - assert (Hl : (if JS.strict_equals
                       (JS.PBool (negb (JS.ToBoolean (JS.code e))))
                       (JS.PString "MODULE_NOT_FOUND")
                     && JS.includes (JS.message e) COMMUNITY_CLI
                  then inl (JS.Raised e) else inr deprecated_stub)
                 = inr deprecated_stub)
      by now destruct (JS.ToBoolean (JS.code e)).
    rewrite Hl. repeat split; try discriminate; eauto.
    intros [H | H]; discriminate.
  - destruct thrown as [| |b|n|s]; cbn; repeat split; try discriminate;
      auto; try (intros [H | H]; discriminate);
      try (intros [[e He] | (t & Ht & Hn & Hu)];
           [discriminate | injection Ht as <-; congruence]);
      try (intros _; right; eexists;
           (split; [reflexivity | split; discriminate]));
      try (intros err [= <-]; reflexivity).
Qed.

(** ** The further properties at concrete runs *)

(** 0.75.0-rc.1 parses as 0.75.0. *)
Lemma release_candidate_parses_as_release :
  free_of "-" "0.75.0" = true
  /\ parseVersion (str "0.75.0-rc.1") = parseVersion (str "0.75.0").
Proof.
  assert (H : free_of "-" "0.75.0" = true) by evaluate.
  exact (conj H (parseVersion_ignores_prerelease "0.75.0" "rc.1" H)).
Defined.

Lemma release_0_75_10_parses_to_text :
  (0 <= 0 /\ 0 <= 75 /\ 0 <= 10 /\ 0 * 1000000 + 75 * 1000 < MAX_SAFE)
  /\ parseVersion (str (release_text 0 75 10))
     = inr (JS.PString (JS.Z_to_string (0 * 1000000 + 75 * 1000)
                        ++ JS.Z_to_string 10)).
Proof.
  assert (H0 : 0 <= 0) by evaluate.
  assert (H75 : 0 <= 75) by evaluate.
  assert (H10 : 0 <= 10) by evaluate.
  assert (Hb : 0 * 1000000 + 75 * 1000 < MAX_SAFE) by evaluate.
  exact (conj (conj H0 (conj H75 (conj H10 Hb)))
              (parseVersion_of_release 0 75 10 H0 H75 H10 Hb)).
Defined.

Lemma short_1_0_is_newer_than_0_75 :
  (0 <= 1 /\ 0 <= 0 < 1000 /\ 0 <= 0 /\ 0 <= 75 < 1000
   /\ 1 * 1000000 + 0 * 1000 < MAX_SAFE /\ 0 * 1000000 + 75 * 1000 < MAX_SAFE)
  /\ is_newer (short_release_text 1 0) (short_release_text 0 75)
     = release_newer (1, 0, 0) (0, 75, 0).
Proof.
  assert (H1 : 0 <= 1) by evaluate.
  assert (H2 : 0 <= 0 < 1000) by (split; evaluate).
  assert (H3 : 0 <= 0) by evaluate.
  assert (H4 : 0 <= 75 < 1000) by (split; evaluate).
  assert (H5 : 1 * 1000000 + 0 * 1000 < MAX_SAFE) by evaluate.
  assert (H6 : 0 * 1000000 + 75 * 1000 < MAX_SAFE) by evaluate.
  exact (conj (conj H1 (conj H2 (conj H3 (conj H4 (conj H5 H6)))))
              (proj2 (short_releases_are_ordered 1 0 0 75 H1 H2 H3 H4 H5 H6))).
Defined.

Lemma fourth_component_of_1_2_3_4 :
  (JS.all_digits "1" = true /\ JS.all_digits "2" = true
   /\ JS.all_digits "3" = true /\ free_of "-" "4" = true)
  /\ parseVersion (str ("1" ++ "." ++ "2" ++ "." ++ "3" ++ "." ++ "4"))
     = parseVersion (str ("1" ++ "." ++ "2" ++ "." ++ "3")).
Proof.
  exact (conj (conj eq_refl (conj eq_refl (conj eq_refl eq_refl)))
              (parseVersion_ignores_fourth_component "1" "2" "3" "4"
                 eq_refl eq_refl eq_refl eq_refl)).
Defined.

(** 0.74.0 under npx with 0.76.0 as the latest release: one advisory. *)
Lemma advisory_for_0_74_0 :
  (check_enabled after_cutoff_init = true
   /\ plain_version "0.76.0" = true
   /\ plain_version (currentVersion after_cutoff_init) = true)
  /\ ((exists line,
         In (Warn UpgradeAdvisory line)
            (output plain parse_fixture en_US after_cutoff_init))
      <-> is_newer "0.76.0" (currentVersion after_cutoff_init) = true).
Proof.
  assert (H : check_enabled after_cutoff_init = true) by evaluate.
  assert (Hl : plain_version "0.76.0" = true) by evaluate.
  assert (Hc : plain_version (currentVersion after_cutoff_init) = true)
    by evaluate.
  exact (conj (conj H (conj Hl Hc))
           (proj1 (upgrade_advisory_iff_newer plain parse_fixture en_US
                     after_cutoff_init "latest:0.76.0"
                     (JS.Object [("version", str "0.76.0")]) "0.76.0"
                     H eq_refl eq_refl eq_refl Hl Hc))).
Defined.

Lemma no_advisory_when_up_to_date :
  check_enabled up_to_date = true
  /\ forall line,
       ~ In (Warn UpgradeAdvisory line)
           (output plain parse_fixture en_US up_to_date).
Proof.
  assert (H : check_enabled up_to_date = true) by evaluate.
  exact (conj H
           (no_advisory_for_running_version plain parse_fixture en_US
              up_to_date "latest:0.76.0"
              (JS.Object [("version", str "0.76.0")])
              H eq_refl eq_refl eq_refl)).
Defined.

Lemma null_body_is_suppressed :
  check_enabled registry_null = true
  /\ output plain parse_fixture en_US registry_null
     = Lookup (DEFAULT_REGISTRY_HOST registry_null)
       :: output plain parse_fixture en_US (opt_out registry_null).
Proof.
  assert (H : check_enabled registry_null = true) by evaluate.
  assert (Hv : forall v, JS.get (JS.Prim JS.PNull) "version" = inr v ->
                         is_string v = false)
    by (intros v Habs; discriminate Habs).
  exact (conj H
           (proj1 (body_without_version_is_suppressed plain parse_fixture en_US
                     registry_null "null" (JS.Prim JS.PNull)
                     H eq_refl eq_refl Hv))).
Defined.

(** A registry that refuses the connection. *)
Lemma registry_down_is_suppressed :
  check_enabled registry_down = true
  /\ output plain parse_fixture en_US registry_down
     = Lookup (DEFAULT_REGISTRY_HOST registry_down)
       :: output plain parse_fixture en_US (opt_out registry_down).
Proof.
  assert (H : check_enabled registry_down = true) by evaluate.
  assert (Hr : registry registry_down (DEFAULT_REGISTRY_HOST registry_down)
               = RequestError econnrefused) by evaluate.
  exact (conj H
           (proj1 (proj2 (failed_lookup_is_suppressed plain parse_fixture en_US
                            registry_down H)
                     (or_introl (ex_intro _ econnrefused Hr))))).
Defined.

(** The same release at the same time, once with the registry down and once
    with the check skipped. *)
Lemma registry_down_ends_like_skipped_check :
  (stalls registry_down = false /\ stalls skipped_check = false)
  /\ result plain parse_fixture en_US registry_down
     = result plain parse_fixture en_US skipped_check.
Proof.
  assert (H1 : stalls registry_down = false) by evaluate.
  assert (H2 : stalls skipped_check = false) by evaluate.
  exact (conj (conj H1 H2)
           (result_ignores_environment_and_registry plain parse_fixture en_US
              registry_down skipped_check H1 H2
              eq_refl eq_refl eq_refl eq_refl)).
Defined.

(** The same pair on two terminals and in two locales. *)
Lemma registry_down_warns_like_skipped_check :
  (stalls registry_down = false /\ stalls skipped_check = false)
  /\ map site_of
       (filter deprecation_message
          (output plain parse_fixture en_US registry_down))
     = map site_of
         (filter deprecation_message
            (output marked parse_fixture iso skipped_check)).
Proof.
  assert (H1 : stalls registry_down = false) by evaluate.
  assert (H2 : stalls skipped_check = false) by evaluate.
  exact (conj (conj H1 H2)
           (deprecation_messages_ignore_advisory
              plain marked parse_fixture parse_fixture en_US iso
              registry_down skipped_check H1 H2 eq_refl eq_refl eq_refl)).
Defined.

Lemma exit_after_cutoff_carries_over :
  (clock after_cutoff_init 0 <= clock after_cutoff_start 0
   /\ stalls after_cutoff_start = false
   /\ result plain parse_fixture en_US after_cutoff_init = Exit 1)
  /\ result plain parse_fixture en_US after_cutoff_start = Exit 1.
Proof.
  assert (H : clock after_cutoff_init 0 <= clock after_cutoff_start 0)
    by evaluate.
  assert (Hs : stalls after_cutoff_start = false) by evaluate.
  assert (He : result plain parse_fixture en_US after_cutoff_init = Exit 1)
    by evaluate.
  exact (conj (conj H (conj Hs He))
           (terminal_is_permanent plain parse_fixture en_US
              after_cutoff_init after_cutoff_start eq_refl H Hs He)).
Defined.

Lemma notice_is_last_after_cutoff :
  (result plain parse_fixture en_US after_cutoff_init = Exit 1
   /\ nth_error (argv after_cutoff_init) 2 = Some "init")
  /\ exists before,
       output plain parse_fixture en_US after_cutoff_init
       = (before ++ [Warn TerminalNotice (deprecated_message plain)])%list.
Proof.
  assert (He : result plain parse_fixture en_US after_cutoff_init = Exit 1)
    by evaluate.
  assert (Hi : nth_error (argv after_cutoff_init) 2 = Some "init") by evaluate.
  destruct (terminal_notice_is_last plain parse_fixture en_US
              after_cutoff_init He Hi) as (before & Hout & _).
  exact (conj (conj He Hi) (ex_intro _ before Hout)).
Defined.

Lemma warning_across_cutoff :
  (stalls across_cutoff = false
   /\ clock across_cutoff 0 < CLI_DEPRECATION_DATE <= clock across_cutoff 1)
  /\ exists daysRemaining,
       daysRemaining <= 0
       /\ In (Warn ScheduleWarning (schedule_message plain en_US daysRemaining))
             (output plain parse_fixture en_US across_cutoff).
Proof.
  assert (Hs : stalls across_cutoff = false) by evaluate.
  assert (H : clock across_cutoff 0 < CLI_DEPRECATION_DATE
              <= clock across_cutoff 1) by (split; evaluate).
  destruct (schedule_warning_when_cutoff_passes_between_readings
              plain parse_fixture en_US across_cutoff Hs eq_refl eq_refl H)
    as (d & Hd & Hin & _).
  exact (conj (conj Hs H) (ex_intro _ d (conj Hd Hin))).
Defined.

Lemma warning_on_29_september :
  (stalls last_day = false
   /\ clock last_day 0 < CLI_DEPRECATION_DATE
   /\ CLI_DEPRECATION_DATE - day <= clock last_day 1 < CLI_DEPRECATION_DATE)
  /\ In (Warn ScheduleWarning (schedule_message plain en_US 1))
        (output plain parse_fixture en_US last_day).
Proof.
  assert (Hs : stalls last_day = false) by evaluate.
  assert (H1 : clock last_day 0 < CLI_DEPRECATION_DATE) by evaluate.
  assert (H2 : CLI_DEPRECATION_DATE - day <= clock last_day 1
               < CLI_DEPRECATION_DATE) by (split; evaluate).
  exact (conj (conj Hs (conj H1 H2))
           (proj1 (schedule_warning_on_the_last_day plain parse_fixture en_US
                     last_day Hs eq_refl eq_refl H1 H2))).
Defined.
